(** * Verification of the course-schedule cleaning pipeline

    Shallow embedding of [clean_course_data.py]: the helpers
    [time_to_minutes], [parse_days], [normalize_course_type],
    [build_course_code] and the per-row loop of [clean_course_data],
    followed by the properties of the specification that they decide.

    Modelling choices.
    - Text is a Rocq [string] read as ASCII.  The [str] methods the script
      calls ([strip], [upper], [split], [int]) have the behaviour CPython
      has on code points below 128; a character code from 128 up stands for
      some other character, without case, neither blank nor digit.
    - Python integers are unbounded, hence [Z]; the length limit newer
      interpreters put on [int] of very long digit strings (a [ValueError],
      caught at both call sites) is not modelled.
    - An exception is a value of [exn] carried by the [result] monad and
      [try ... except] is [try_except]; a function that returns [None] or a
      number returns an [option].
    - A dictionary is an association list in insertion order.
    - Reading the input file and writing the output file are left out: the
      run goes from the rows the reader yields to the list of records handed
      to the serializer.

    The scripts that read the output back ([analytics.py] and the first part
    of [analyze_over_capacity.py], with [minutes_to_time]) and the word list
    of [word_frequency.py] are embedded in modules of their own. *)

From Stdlib Require Import ZArith List Bool Ascii String Lia Permutation.
From Stdlib Require Import DecimalString.
Import ListNotations.

Open Scope string_scope.
Open Scope list_scope.
Open Scope Z_scope.

(* ================================================================= *)
(** ** Exceptions *)

Inductive exn : Type := ValueError | AttributeError | TypeError.

Inductive result (A : Type) : Type :=
| Ok (a : A)
| Raise (e : exn).

Arguments Ok {A} a.
Arguments Raise {A} e.

Definition bind {A B : Type} (c : result A) (k : A -> result B) : result B :=
  match c with
  | Ok a => k a
  | Raise e => Raise e
  end.

Notation "x <- c ;; k" := (bind c (fun x => k))
  (at level 61, c at next level, right associativity).

Definition exn_eqb (a b : exn) : bool :=
  match a, b with
  | ValueError, ValueError => true
  | AttributeError, AttributeError => true
  | TypeError, TypeError => true
  | _, _ => false
  end.

(** [try: body  except (caught...): handler] *)
Definition try_except {A : Type} (body : result A) (caught : list exn)
    (handler : result A) : result A :=
  match body with
  | Ok a => Ok a
  | Raise e => if existsb (exn_eqb e) caught then handler else Raise e
  end.

(* ================================================================= *)
(** ** The [str] methods the script calls *)

Module PyStr.

Definition code (c : ascii) : N := N_of_ascii c.

Definition between (lo hi : N) (c : ascii) : bool :=
  ((lo <=? code c) && (code c <=? hi))%N.

(** [str.isspace] on one ASCII character: TAB LF VT FF CR, FS GS RS US, SPACE. *)
Definition isspace (c : ascii) : bool :=
  between 9 13 c || between 28 31 c || (code c =? 32)%N.

(** The blanks [int] skips around a literal: TAB LF VT FF CR and SPACE only. *)
Definition int_blank (c : ascii) : bool :=
  between 9 13 c || (code c =? 32)%N.

Definition isdigit (c : ascii) : bool := between 48 57 c.

Definition digit_value (c : ascii) : Z := Z.of_N (code c - 48).

Definition dquote : ascii := "034"%char.
Definition colon : ascii := ":"%char.
Definition underscore : ascii := "_"%char.

Definition is_quote (c : ascii) : bool := Ascii.eqb c dquote.

(** [not s] for a [str] *)
Definition is_empty (s : string) : bool :=
  match s with
  | EmptyString => true
  | String _ _ => false
  end.

Fixpoint lstrip_by (p : ascii -> bool) (s : string) : string :=
  match s with
  | EmptyString => EmptyString
  | String c r => if p c then lstrip_by p r else s
  end.

Fixpoint rstrip_by (p : ascii -> bool) (s : string) : string :=
  match s with
  | EmptyString => EmptyString
  | String c r =>
      let r' := rstrip_by p r in
      if p c && is_empty r' then EmptyString else String c r'
  end.

Definition strip_by (p : ascii -> bool) (s : string) : string :=
  rstrip_by p (lstrip_by p s).

(** [s.strip()] *)
Definition strip (s : string) : string := strip_by isspace s.

(** [s.strip] with the double-quote character as its argument *)
Definition strip_quotes (s : string) : string := strip_by is_quote s.

Definition upper_char (c : ascii) : ascii :=
  if between 97 122 c then ascii_of_N (code c - 32) else c.

(** [s.upper()] *)
Fixpoint upper (s : string) : string :=
  match s with
  | EmptyString => EmptyString
  | String c r => String (upper_char c) (upper r)
  end.

(** [s.split(sep)] for a one-character separator: always at least one piece. *)
Fixpoint split (sep : ascii) (s : string) : list string :=
  match s with
  | EmptyString => [EmptyString]
  | String c r =>
      if Ascii.eqb c sep then EmptyString :: split sep r
      else match split sep r with
           | p :: ps => String c p :: ps
           | [] => [String c EmptyString]
           end
  end.

(** Iterating over a [str] yields its one-character strings. *)
Fixpoint chars (s : string) : list string :=
  match s with
  | EmptyString => []
  | String c r => String c EmptyString :: chars r
  end.

(** The digit run of a decimal literal, as [int] scans it: single underscores
    are allowed between digits only.  [prev_us] records that the previous
    character was an underscore.  Returns the value read and the text left. *)
Fixpoint scan_digits (acc : Z) (prev_us : bool) (s : string) : option (Z * string) :=
  match s with
  | EmptyString => if prev_us then None else Some (acc, EmptyString)
  | String c r =>
      if isdigit c then scan_digits (10 * acc + digit_value c) false r
      else if Ascii.eqb c underscore then
             (if prev_us then None else scan_digits acc true r)
      else if prev_us then None else Some (acc, s)
  end.

Definition split_sign (s : string) : Z * string :=
  match s with
  | String "+"%char r => (1, r)
  | String "-"%char r => (-1, r)
  | _ => (1, s)
  end.

(** [int(s)] in base 10: blanks, an optional sign, a digit run that starts
    with a digit, blanks, end of text; anything else is a [ValueError]. *)
Definition int (s : string) : result Z :=
  let '(sign, body) := split_sign (lstrip_by int_blank s) in
  match body with
  | String c _ =>
      if isdigit c then
        match scan_digits 0 false body with
        | Some (n, rest) =>
            if is_empty (lstrip_by int_blank rest) then Ok (sign * n)
            else Raise ValueError
        | None => Raise ValueError
        end
      else Raise ValueError
  | EmptyString => Raise ValueError
  end.

End PyStr.

Import PyStr.

(* ================================================================= *)
(** ** Dictionaries with string keys, in insertion order *)

Section Dict.

Context {V : Type}.

Definition dict : Type := list (string * V).

Fixpoint dict_get (d : dict) (k : string) : option V :=
  match d with
  | [] => None
  | (k', v) :: d' => if String.eqb k' k then Some v else dict_get d' k
  end.

(** [d[k] = v]: an existing key keeps its place and takes the new value. *)
Fixpoint dict_set (d : dict) (k : string) (v : V) : dict :=
  match d with
  | [] => [(k, v)]
  | (k', v') :: d' =>
      if String.eqb k' k then (k', v) :: d' else (k', v') :: dict_set d' k v
  end.

Definition dict_keys (d : dict) : list string := map fst d.

End Dict.

Arguments dict V : clear implicits.

(* ================================================================= *)
(** ** [time_to_minutes] *)

(** [hours, minutes = map(int, pieces)]: [map] is lazy, so the conversions run
    as the unpacking asks for items; a wrong number of items is a
    [ValueError] as well. *)
Definition unpack2_map_int (pieces : list string) : result (Z * Z) :=
  match pieces with
  | [] => Raise ValueError
  | [a] => _ <- int a ;; Raise ValueError
  | a :: b :: rest =>
      hours <- int a ;;
      minutes <- int b ;;
      match rest with
      | [] => Ok (hours, minutes)
      | c :: _ => _ <- int c ;; Raise ValueError
      end
  end.

(** The Python function returns an [int] or [None]: [option Z]. *)
Definition time_to_minutes (time_str : string) : result (option Z) :=
  if is_empty time_str || String.eqb (strip time_str) "" then Ok None
  else
    let time_str := strip time_str in
    try_except
      (hm <- unpack2_map_int (split colon time_str) ;;
       let '(hours, minutes) := hm in
       Ok (Some (hours * 60 + minutes)))
      [ValueError; AttributeError]
      (Ok None).

(* ================================================================= *)
(** ** [parse_days] *)

Definition day_map : dict string :=
  [("M", "M"); ("T", "T"); ("W", "W"); ("R", "R"); ("F", "F")].

(** A Python [set] of strings, used for membership only. *)
Definition set_mem (x : string) (s : list string) : bool :=
  existsb (String.eqb x) s.

Definition set_add (x : string) (s : list string) : list string :=
  if set_mem x s then s else x :: s.

(** First loop: collect the mapped letter of every character in [day_map]. *)
Definition collect_days (text : string) : list string :=
  fold_left
    (fun days char =>
       match dict_get day_map char with
       | Some d => days ++ [d]
       | None => days
       end)
    (chars text) [].

(** Second loop: [seen] and [unique_days] are threaded through. *)
Definition dedup_step (st : list string * list string) (day : string)
    : list string * list string :=
  let '(seen, unique_days) := st in
  if set_mem day seen then (seen, unique_days)
  else (set_add day seen, unique_days ++ [day]).

Definition parse_days (days_str : string) : list string :=
  if is_empty days_str then []
  else
    let days := collect_days (upper days_str) in
    snd (fold_left dedup_step days ([], [])).

(* ================================================================= *)
(** ** [normalize_course_type] and [build_course_code] *)

Definition type_map : dict string :=
  [("LEC", "LEC"); ("LAB", "LAB"); ("LCLB", "LCLB"); ("HYBD", "HYBD");
   ("ONL", "ONL"); ("TD", "TD")].

Definition normalize_course_type (lec_lab : string) : string :=
  if is_empty lec_lab then ""
  else
    let normalized := upper (strip lec_lab) in
    match dict_get type_map normalized with
    | Some t => t
    | None => normalized
    end.

Definition build_course_code (subj course_num : string) : string :=
  let subj := if is_empty subj then "" else strip subj in
  let course_num := if is_empty course_num then "" else strip course_num in
  strip (subj ++ " " ++ course_num).

(* ================================================================= *)
(** ** Rows as [csv.DictReader] hands them over

    A row is a mapping in header order.  A key is a header name, or [None]
    (the reader's default [restkey]) when the line has more cells than the
    header; a value is a [str], [None] (the default [restval] of a short
    line) or, under the [None] key, the list of surplus cells. *)

Inductive pyval : Type :=
| PyNone
| PyStr (s : string)
| PyList (l : list string).

Definition raw_row : Type := list (option string * pyval).

Definition truthy (v : pyval) : bool :=
  match v with
  | PyNone => false
  | PyStr s => negb (is_empty s)
  | PyList l => match l with [] => false | _ :: _ => true end
  end.

(** [{k.strip(): v for k, v in row.items()}], started from the dictionary
    built so far. *)
Fixpoint normalize_keys (items : raw_row) (d : dict pyval) : result (dict pyval) :=
  match items with
  | [] => Ok d
  | (None, _) :: _ => Raise AttributeError
  | (Some k, v) :: rest => normalize_keys rest (dict_set d (strip k) v)
  end.

(** [d.get(name)] *)
Definition get_or_none (d : dict pyval) (name : string) : pyval :=
  match dict_get d name with
  | Some v => v
  | None => PyNone
  end.

(** [x or ''] *)
Definition or_empty (x : pyval) : pyval :=
  if truthy x then x else PyStr "".

(** [x.strip()]: only a [str] has the method. *)
Definition call_strip (x : pyval) : result string :=
  match x with
  | PyStr s => Ok (strip s)
  | PyNone | PyList _ => Raise AttributeError
  end.

(** [(normalized_row.get(name) or '').strip().strip(QUOTE)] *)
Definition text_field (normalized_row : dict pyval) (name : string) : result string :=
  s <- call_strip (or_empty (get_or_none normalized_row name)) ;;
  Ok (strip_quotes s).

(** The enrollment conversion, written twice in the source:
    [try: n = int(text) if text else None  except (ValueError, TypeError): n = None] *)
Definition enrollment_of (text : string) : result (option Z) :=
  try_except
    (if is_empty text then Ok None else n <- int text ;; Ok (Some n))
    [ValueError; TypeError]
    (Ok None).

(* ================================================================= *)
(** ** Output records *)

Inductive jvalue : Type :=
| JNull
| JInt (n : Z)
| JStr (s : string).

Definition record : Type := dict jvalue.

Definition optional_int (o : option Z) : jvalue :=
  match o with
  | Some n => JInt n
  | None => JNull
  end.

(** The dictionary literal of the innermost loop. *)
Definition make_record (course_code title sec course_type bldg room : string)
    (start_minutes end_minutes : Z) (max_enrollment current_enrollment : option Z)
    (day : string) : record :=
  [("course", JStr course_code);
   ("title", JStr title);
   ("section", JStr sec);
   ("type", JStr course_type);
   ("building", JStr bldg);
   ("room", JStr room);
   ("day", JStr day);
   ("start_minutes", JInt start_minutes);
   ("end_minutes", JInt end_minutes);
   ("max_enrollment", optional_int max_enrollment);
   ("current_enrollment", optional_int current_enrollment)].

(* ================================================================= *)
(** ** The loop of [clean_course_data] *)

Definition is_nil {A : Type} (l : list A) : bool :=
  match l with
  | [] => true
  | _ :: _ => false
  end.

(** One iteration of [for row in reader]; [continue] returns the records
    collected so far unchanged. *)
Definition loop_body (cleaned_records : list record) (row : raw_row)
    : result (list record) :=
  normalized_row <- normalize_keys row [] ;;
  subj <- text_field normalized_row "Subj" ;;
  course_num <- text_field normalized_row "#" ;;
  title <- text_field normalized_row "Title" ;;
  sec <- text_field normalized_row "Sec" ;;
  lec_lab <- text_field normalized_row "Lec Lab" ;;
  start_time <- text_field normalized_row "Start Time" ;;
  end_time <- text_field normalized_row "End Time" ;;
  days <- text_field normalized_row "Days" ;;
  bldg <- text_field normalized_row "Bldg" ;;
  room <- text_field normalized_row "Room" ;;
  max_enrollment_str <- text_field normalized_row "Max Enrollment" ;;
  current_enrollment_str <- text_field normalized_row "Current Enrollment" ;;
  max_enrollment <- enrollment_of max_enrollment_str ;;
  current_enrollment <- enrollment_of current_enrollment_str ;;
  if String.eqb (upper start_time) "TBA" || String.eqb (upper end_time) "TBA"
     || is_empty start_time || is_empty end_time
  then Ok cleaned_records
  else if String.eqb (upper bldg) "ONLINE" || is_empty bldg
          || String.eqb (strip bldg) ""
  then Ok cleaned_records
  else if String.eqb (upper room) "SEE NOTES"
  then Ok cleaned_records
  else
    start_minutes <- time_to_minutes start_time ;;
    end_minutes <- time_to_minutes end_time ;;
    match start_minutes, end_minutes with
    | Some start_minutes, Some end_minutes =>
        let day_list := parse_days days in
        if is_nil day_list then Ok cleaned_records
        else
          let course_code := build_course_code subj course_num in
          let course_type := normalize_course_type lec_lab in
          Ok (fold_left
                (fun cleaned_records day =>
                   cleaned_records ++
                   [make_record course_code title sec course_type bldg room
                      start_minutes end_minutes max_enrollment
                      current_enrollment day])
                day_list cleaned_records)
    | _, _ => Ok cleaned_records
    end.

Fixpoint for_each_row (rows : list raw_row) (cleaned_records : list record)
    : result (list record) :=
  match rows with
  | [] => Ok cleaned_records
  | row :: rest =>
      cleaned_records <- loop_body cleaned_records row ;;
      for_each_row rest cleaned_records
  end.

(** [clean_course_data], from the rows the reader yields to the list handed
    to [json.dump]. *)
Definition clean_course_data (rows : list raw_row) : result (list record) :=
  for_each_row rows [].

(* ================================================================= *)
(** ** A functional reading of one row

    The definitions below name what the loop body computes for a row whose
    keys are header names and whose values are text or [None]; the lemmas
    relate them to [loop_body]. *)

Definition plain_item (kv : option string * pyval) : bool :=
  match kv with
  | (Some _, PyNone) | (Some _, PyStr _) => true
  | _ => false
  end.

Definition well_formed (row : raw_row) : bool := forallb plain_item row.

(** The value the stripped header [name] ends up with: the last item wins. *)
Fixpoint lookup (row : raw_row) (name : string) : option pyval :=
  match row with
  | [] => None
  | (k, v) :: rest =>
      match lookup rest name with
      | Some x => Some x
      | None =>
          match k with
          | Some k => if String.eqb (strip k) name then Some v else None
          | None => None
          end
      end
  end.

(** The text of a column before normalization; a missing column and [None]
    read as the empty text. *)
Definition cell (row : raw_row) (name : string) : string :=
  match lookup row name with
  | Some (PyStr s) => s
  | _ => ""
  end.

(** The normalized text of a column. *)
Definition field (row : raw_row) (name : string) : string :=
  strip_quotes (strip (cell row name)).

Definition columns : list string :=
  ["Subj"; "#"; "Title"; "Sec"; "Lec Lab"; "Start Time"; "End Time"; "Days";
   "Bldg"; "Room"; "Max Enrollment"; "Current Enrollment"].

(** The three textual tests of the loop body, as written there. *)
Definition textual_skip (row : raw_row) : bool :=
  let start_time := field row "Start Time" in
  let end_time := field row "End Time" in
  let bldg := field row "Bldg" in
  let room := field row "Room" in
  (String.eqb (upper start_time) "TBA" || String.eqb (upper end_time) "TBA"
   || is_empty start_time || is_empty end_time)
  || (String.eqb (upper bldg) "ONLINE" || is_empty bldg
      || String.eqb (strip bldg) "")
  || String.eqb (upper room) "SEE NOTES".

Definition minutes_of (text : string) : option Z :=
  match time_to_minutes text with
  | Ok o => o
  | Raise _ => None
  end.

Definition enrollment (text : string) : option Z :=
  match enrollment_of text with
  | Ok o => o
  | Raise _ => None
  end.

Definition record_of (row : raw_row) (start_minutes end_minutes : Z)
    (day : string) : record :=
  make_record
    (build_course_code (field row "Subj") (field row "#"))
    (field row "Title") (field row "Sec")
    (normalize_course_type (field row "Lec Lab"))
    (field row "Bldg") (field row "Room")
    start_minutes end_minutes
    (enrollment (field row "Max Enrollment"))
    (enrollment (field row "Current Enrollment"))
    day.

Definition row_records (row : raw_row) : list record :=
  if textual_skip row then []
  else
    match minutes_of (field row "Start Time"), minutes_of (field row "End Time") with
    | Some start_minutes, Some end_minutes =>
        map (record_of row start_minutes end_minutes)
            (parse_days (field row "Days"))
    | _, _ => []
    end.

(* ================================================================= *)
(** ** The vocabulary of the specification *)

Module Spec.

Definition lower_char (c : ascii) : ascii :=
  if between 65 90 c then ascii_of_N (code c + 32) else c.

Fixpoint lower (s : string) : string :=
  match s with
  | EmptyString => EmptyString
  | String c r => String (lower_char c) (lower r)
  end.

(** Equality of two texts compared case-insensitively. *)
Definition same_ignoring_case (s t : string) : bool :=
  String.eqb (lower s) (lower t).

Fixpoint all_chars (p : ascii -> bool) (s : string) : bool :=
  match s with
  | EmptyString => true
  | String c r => p c && all_chars p r
  end.

Fixpoint occurs (c : ascii) (s : string) : bool :=
  match s with
  | EmptyString => false
  | String c' r => Ascii.eqb c' c || occurs c r
  end.

(** The weekday letters, upper and lower case. *)
Definition weekday_letters : list (ascii * ascii) :=
  [("M", "m"); ("T", "t"); ("W", "w"); ("R", "r"); ("F", "f")]%char.

Definition weekday_codes : list string := ["M"; "T"; "W"; "R"; "F"].

Definition recognized (c : ascii) : bool :=
  existsb (fun '(u, l) => Ascii.eqb c u || Ascii.eqb c l) weekday_letters.

(** Number of distinct weekday codes a day pattern mentions. *)
Definition distinct_weekdays (s : string) : nat :=
  List.length (filter (fun '(u, l) => occurs u s || occurs l s) weekday_letters).

(** A time text that does not encode to minutes. *)
Definition unparseable (text : string) : bool :=
  match time_to_minutes text with
  | Ok (Some _) => false
  | _ => true
  end.

(** The exclusion conditions of the Row Filter, read literally. *)
Definition excluded_as_listed (row : raw_row) : bool :=
  let start_time := field row "Start Time" in
  let end_time := field row "End Time" in
  let bldg := field row "Bldg" in
  let room := field row "Room" in
  let days := field row "Days" in
  same_ignoring_case start_time "TBA" || same_ignoring_case end_time "TBA"
  || is_empty start_time || is_empty end_time
  || is_empty bldg || same_ignoring_case bldg "ONLINE"
  || same_ignoring_case room "SEE NOTES"
  || unparseable start_time || unparseable end_time
  || all_chars (fun c => negb (recognized c)) days.

(** The same with a building made of blanks only counted as empty. *)
Definition excluded (row : raw_row) : bool :=
  excluded_as_listed row || all_chars isspace (field row "Bldg").

(** First and last character tests. *)
Definition starts_with (p : ascii -> bool) (s : string) : bool :=
  match s with
  | EmptyString => false
  | String c _ => p c
  end.

Fixpoint ends_with (p : ascii -> bool) (s : string) : bool :=
  match s with
  | EmptyString => false
  | String c EmptyString => p c
  | String _ r => ends_with p r
  end.

(** No character satisfying [p] at either end. *)
Definition bare (p : ascii -> bool) (s : string) : bool :=
  negb (starts_with p s) && negb (ends_with p s).

(** Zero-padded two-digit decimal text of a number below 100. *)
Definition digit_char (d : Z) : ascii := ascii_of_N (48 + Z.to_N d).

Definition two_digits (n : Z) : string :=
  String (digit_char (n / 10)) (String (digit_char (n mod 10)) EmptyString).

Definition hh_mm (h m : Z) : string :=
  (two_digits h ++ ":" ++ two_digits m)%string.



(** The field names of a meeting record as section 3 of the specification
    writes them, and as the script writes them. *)
Definition names_as_specified : list string :=
  ["course"; "title"; "section"; "type"; "building"; "room"; "day";
   "startMinutes"; "endMinutes"; "maxEnrollment"; "currentEnrollment"].

Definition names_as_written : list string :=
  ["course"; "title"; "section"; "type"; "building"; "room"; "day";
   "start_minutes"; "end_minutes"; "max_enrollment"; "current_enrollment"].

End Spec.

Import Spec.

(* ================================================================= *)
(** ** Closed forms of the two loops of [parse_days] *)

(** What the second loop appends when it starts with [seen]. *)
Fixpoint dedup_from (seen : list string) (l : list string) : list string :=
  match l with
  | [] => []
  | x :: r =>
      if set_mem x seen then dedup_from seen r
      else x :: dedup_from (x :: seen) r
  end.

(** What the first loop collects from the upper-cased text. *)
Fixpoint day_letters (s : string) : list string :=
  match s with
  | EmptyString => []
  | String c r =>
      if recognized c then String (upper_char c) EmptyString :: day_letters r
      else day_letters r
  end.

(* ================================================================= *)
(** ** Checking the time encoder on every minute of the day *)

Definition upto (n : nat) : list Z := map Z.of_nat (seq 0 n).

Definition encodes (h m : Z) : bool :=
  match time_to_minutes (hh_mm h m) with
  | Ok (Some r) => r =? h * 60 + m
  | _ => false
  end.

Definition every_minute_encodes : bool :=
  forallb (fun h => forallb (encodes h) (upto 60)) (upto 24).

(* ================================================================= *)
(** ** Sample rows *)

Definition quoted (s : string) : string :=
  String dquote (s ++ String dquote EmptyString).

(** The end-to-end example of the specification. *)
Definition sample_row : raw_row :=
  [(Some "Subj", PyStr "ALE"); (Some "#", PyStr "2170");
   (Some "Title", PyStr "Intro"); (Some "Sec", PyStr "001");
   (Some "Start Time", PyStr "09:00"); (Some "End Time", PyStr "09:50");
   (Some "Days", PyStr "MWF"); (Some "Bldg", PyStr "SCI");
   (Some "Room", PyStr "101"); (Some "Max Enrollment", PyStr "30");
   (Some "Current Enrollment", PyStr "28")].

(** [sample_row] with one column given another text. *)
Definition with_cell (name text : string) : raw_row :=
  sample_row ++ [(Some name, PyStr text)].

(* ================================================================= *)
(** ** The weekday codes a pattern mentions, as a list *)

Definition mentioned_codes (s : string) : list string :=
  map (fun '(u, _) => String u EmptyString)
      (filter (fun '(u, l) => occurs u s || occurs l s) weekday_letters).

(* ================================================================= *)
(** ** Properties of a record the specification speaks about *)

(** Start and end are integers within one day. *)
Definition minutes_in_day (r : record) : Prop :=
  exists a b,
    dict_get r "start_minutes" = Some (JInt a)
    /\ dict_get r "end_minutes" = Some (JInt b)
    /\ 0 <= a <= 1439 /\ 0 <= b <= 1439.

(** Every text value of the record is free of blanks at both ends. *)
Definition texts_trimmed (r : record) : Prop :=
  forall k s, dict_get r k = Some (JStr s) -> bare isspace s = true.

(* ================================================================= *)
(** ** Further vocabulary for the properties of the helpers *)



(** A row with every header name stripped of its blanks. *)
Definition strip_headers (row : raw_row) : raw_row :=
  map (fun '(k, v) => (option_map strip k, v)) row.

(** The row has a [None] key, as [csv.DictReader] gives a line with more
    cells than the header. *)
Definition has_surplus_cells (row : raw_row) : bool :=
  existsb (fun '(k, _) => match k with None => true | Some _ => false end) row.

(* ================================================================= *)
(** ** Values read back from the JSON file

    The two scripts that consume the output load it with [json.load].  A
    value is modelled as null, a boolean, an integer or a text; JSON
    numbers with a fraction, arrays and nested objects are left out. *)

Module Json.

Inductive json : Type :=
| Null
| Bool (b : bool)
| Int (n : Z)
| Str (s : string).

Definition of_jvalue (v : jvalue) : json :=
  match v with
  | JNull => Null
  | JInt n => Int n
  | JStr s => Str s
  end.

(** The object [json.load] gives back for a record [json.dump] wrote. *)
Definition of_record (r : record) : dict json :=
  map (fun '(k, v) => (k, of_jvalue v)) r.

(** A Python [bool] is an [int]. *)
Definition as_int (v : json) : option Z :=
  match v with
  | Bool b => Some (if b then 1 else 0)
  | Int n => Some n
  | Null | Str _ => None
  end.

(** [a == b] *)
Definition equal (a b : json) : bool :=
  match a, b with
  | Null, Null => true
  | Str s, Str t => String.eqb s t
  | _, _ =>
      match as_int a, as_int b with
      | Some x, Some y => x =? y
      | _, _ => false
      end
  end.

(** [a > b]: numbers by value, texts by code points, anything else is a
    [TypeError]. *)
Definition greater (a b : json) : result bool :=
  match a, b with
  | Str s, Str t => Ok (String.ltb t s)
  | _, _ =>
      match as_int a, as_int b with
      | Some x, Some y => Ok (x >? y)
      | _, _ => Raise TypeError
      end
  end.

(** [d.get(k)] and [d.get(k, default)] *)
Definition get (d : dict json) (k : string) : json :=
  match dict_get d k with
  | Some v => v
  | None => Null
  end.

Definition get_default (d : dict json) (k : string) (default : json) : json :=
  match dict_get d k with
  | Some v => v
  | None => default
  end.

End Json.

(* ================================================================= *)
(** ** [analytics.py] *)

Module Analytics.

Import Json.

(** [[c for c in courses
      if c.get('current_enrollment', 0) > c.get('capacity', 0)]] *)
Fixpoint over_capacity (courses : list (dict json)) : result (list (dict json)) :=
  match courses with
  | [] => Ok []
  | c :: rest =>
      keep <- greater (get_default c "current_enrollment" (Int 0))
                      (get_default c "capacity" (Int 0)) ;;
      more <- over_capacity rest ;;
      Ok (if keep then c :: more else more)
  end.

End Analytics.

(* ================================================================= *)
(** ** [analyze_over_capacity.py] *)

Module Report.

Import Json.

(** [str(n)] for an [int] *)
Definition str_of_int (n : Z) : string := NilZero.string_of_int (Z.to_int n).

(** [f"{n:02d}"]: padded with a zero to two characters. *)
Definition format_02d (n : Z) : string :=
  let s := str_of_int n in
  if (String.length s <? 2)%nat then ("0" ++ s)%string else s.

(** [minutes_to_time]; the argument is what a record holds under
    [start_minutes] or [end_minutes]. *)
Definition minutes_to_time (minutes : json) : result string :=
  match minutes with
  | Null => Ok "N/A"
  | Str _ => Raise TypeError
  | Bool _ | Int _ =>
      match as_int minutes with
      | Some minutes =>
          let hours := minutes / 60 in
          let mins := minutes mod 60 in
          let period := if hours <? 12 then "AM" else "PM" in
          let display_hour :=
            if hours =? 0 then 12
            else if hours >? 12 then hours - 12
            else hours in
          Ok (str_of_int display_hour ++ ":" ++ format_02d mins ++ " " ++ period)%string
      | None => Raise TypeError
      end
  end.

(** The dictionary appended to [over_capacity_classes]. *)
Record over_class : Type := {
  cls_course : json;
  cls_title : json;
  cls_section : json;
  cls_building : string;
  cls_room : string;
  cls_current_enrollment : json;
  cls_capacity : json;
  cls_day : json;
  cls_start_minutes : json;
  cls_end_minutes : json
}.

(** [x.strip()] on a loaded value: only a text has the method. *)
Definition strip_value (x : json) : result string :=
  match x with
  | Str s => Ok (strip s)
  | Null | Bool _ | Int _ => Raise AttributeError
  end.

Definition is_null (x : json) : bool :=
  match x with
  | Null => true
  | _ => false
  end.

(** One iteration of the first loop over [course_data]; the state is
    [over_capacity_classes] and [total_with_true_capacity]. *)
Definition capacity_step (st : list over_class * nat) (course : dict json)
    : result (list over_class * nat) :=
  let '(over_capacity_classes, total_with_true_capacity) := st in
  if equal (get course "capacity_from_csv") (Bool true) then
    let total_with_true_capacity := S total_with_true_capacity in
    building <- strip_value (get_default course "building" (Str "")) ;;
    room <- strip_value (get_default course "room" (Str "")) ;;
    let current_enrollment := get course "current_enrollment" in
    let capacity := get course "capacity" in
    if is_null current_enrollment || is_null capacity
    then Ok (over_capacity_classes, total_with_true_capacity)
    else
      over <- greater current_enrollment capacity ;;
      if over then
        Ok (over_capacity_classes ++
            [{| cls_course := get course "course";
                cls_title := get course "title";
                cls_section := get course "section";
                cls_building := building;
                cls_room := room;
                cls_current_enrollment := current_enrollment;
                cls_capacity := capacity;
                cls_day := get course "day";
                cls_start_minutes := get course "start_minutes";
                cls_end_minutes := get course "end_minutes" |}],
            total_with_true_capacity)
      else Ok (over_capacity_classes, total_with_true_capacity)
  else Ok st.

Fixpoint capacity_loop (course_data : list (dict json))
    (st : list over_class * nat) : result (list over_class * nat) :=
  match course_data with
  | [] => Ok st
  | course :: rest =>
      st <- capacity_step st course ;;
      capacity_loop rest st
  end.

(** The entries of [consolidated[key]['meetings']]. *)
Record meeting : Type := {
  m_day : json;
  m_start_minutes : json;
  m_end_minutes : json
}.

(** The values of [consolidated]. *)
Record section : Type := {
  sec_course : json;
  sec_title : json;
  sec_section : json;
  sec_building : string;
  sec_room : string;
  sec_current_enrollment : json;
  sec_capacity : json;
  sec_meetings : list meeting
}.

Definition key : Type := (json * json)%type.

(** Equality of two tuple keys, as the dictionary sees it. *)
Definition key_equal (a b : key) : bool :=
  equal (fst a) (fst b) && equal (snd a) (snd b).

Definition key_of (cls : over_class) : key := (cls_course cls, cls_section cls).

Definition meeting_of (cls : over_class) : meeting :=
  {| m_day := cls_day cls;
     m_start_minutes := cls_start_minutes cls;
     m_end_minutes := cls_end_minutes cls |}.

Definition new_section (cls : over_class) : section :=
  {| sec_course := cls_course cls;
     sec_title := cls_title cls;
     sec_section := cls_section cls;
     sec_building := cls_building cls;
     sec_room := cls_room cls;
     sec_current_enrollment := cls_current_enrollment cls;
     sec_capacity := cls_capacity cls;
     sec_meetings := [] |}.

Definition append_meeting (s : section) (m : meeting) : section :=
  {| sec_course := sec_course s;
     sec_title := sec_title s;
     sec_section := sec_section s;
     sec_building := sec_building s;
     sec_room := sec_room s;
     sec_current_enrollment := sec_current_enrollment s;
     sec_capacity := sec_capacity s;
     sec_meetings := sec_meetings s ++ [m] |}.

(** One iteration of the grouping loop on the dictionary [consolidated],
    kept in insertion order: a new key is inserted with no meeting, then the
    meeting is appended to the entry of the key. *)
Fixpoint consolidate_step (consolidated : list (key * section))
    (cls : over_class) : list (key * section) :=
  match consolidated with
  | [] => [(key_of cls, append_meeting (new_section cls) (meeting_of cls))]
  | (k, s) :: rest =>
      if key_equal k (key_of cls)
      then (k, append_meeting s (meeting_of cls)) :: rest
      else (k, s) :: consolidate_step rest cls
  end.

Definition consolidate (over_capacity_classes : list over_class)
    : list (key * section) :=
  fold_left consolidate_step over_capacity_classes [].

(** What can end the first part of the report. *)
Inductive failure : Type :=
| Builtin (e : exn)
| ZeroDivisionError.

Inductive outcome (A : Type) : Type :=
| Done (a : A)
| Failed (f : failure).

Arguments Done {A} a.
Arguments Failed {A} f.

(** The numbers the first part of [analyze_over_capacity] prints, up to
    and including the percentage line (lines 41 to 102): meetings over
    capacity, meetings with a true capacity, sections over capacity.  The
    percentage divides by the second. *)
Definition capacity_summary (course_data : list (dict json))
    : outcome (list over_class * nat * list (key * section)) :=
  match capacity_loop course_data ([], 0%nat) with
  | Raise e => Failed (Builtin e)
  | Ok (over_capacity_classes, total_with_true_capacity) =>
      let consolidated := consolidate over_capacity_classes in
      if (total_with_true_capacity =? 0)%nat then Failed ZeroDivisionError
      else Done (over_capacity_classes, total_with_true_capacity, consolidated)
  end.

(** The twelve-hour reading of hour [h] and minute [m] of the day. *)
Definition twelve_hour (h m : Z) : string :=
  let hour := if h mod 12 =? 0 then 12 else h mod 12 in
  let period := if h <? 12 then "AM" else "PM" in
  (str_of_int hour ++ ":" ++ two_digits m ++ " " ++ period)%string.

(** The displays of all minutes of one day, in order. *)
Definition day_of_displays : list (result string) :=
  map (fun n => minutes_to_time (Int n)) (upto 1440).

Fixpoint distinct_strings (l : list (result string)) : bool :=
  match l with
  | [] => true
  | x :: r =>
      negb (existsb (fun y => match x, y with
                              | Ok s, Ok t => String.eqb s t
                              | _, _ => true
                              end) r)
      && distinct_strings r
  end.

Definition composes (h m : Z) : bool :=
  match minutes_to_time (Int (h * 60 + m)) with
  | Ok s => String.eqb s (twelve_hour h m)
  | Raise _ => false
  end.

Definition every_minute_composes : bool :=
  forallb (fun h => forallb (composes h) (upto 60)) (upto 24).

End Report.

(* ================================================================= *)
(** ** Vocabulary for the grouping of the report *)

(** The representative of a loaded value among the values equal to it:
    booleans count as 0 and 1. *)
Definition canonical (v : Json.json) : Json.json :=
  match v with
  | Json.Bool b => Json.Int (if b then 1 else 0)
  | _ => v
  end.

Definition canonical_key (k : Report.key) : Json.json * Json.json :=
  (canonical (fst k), canonical (snd k)).

(** Number of meetings held by all sections together. *)
Definition total_meetings (consolidated : list (Report.key * Report.section)) : nat :=
  list_sum (map (fun e => List.length (Report.sec_meetings (snd e))) consolidated).

(** The meetings of the over-capacity records that have key [k], in order. *)
Definition meetings_with_key (k : Report.key) (over : list Report.over_class)
    : list Report.meeting :=
  map Report.meeting_of
      (filter (fun cls => Report.key_equal k (Report.key_of cls)) over).

(** The flag test of the first loop. *)
Definition flagged (course : dict Json.json) : bool :=
  Json.equal (Json.get course "capacity_from_csv") (Json.Bool true).

(** The section shows the data of the record [cls]. *)
Definition shows (s : Report.section) (cls : Report.over_class) : Prop :=
  Report.sec_course s = Report.cls_course cls
  /\ Report.sec_title s = Report.cls_title cls
  /\ Report.sec_section s = Report.cls_section cls
  /\ Report.sec_building s = Report.cls_building cls
  /\ Report.sec_room s = Report.cls_room cls
  /\ Report.sec_current_enrollment s = Report.cls_current_enrollment cls
  /\ Report.sec_capacity s = Report.cls_capacity cls.

(** The grouping step on an entry: the meeting goes to the entry whose key
    equals the key of the record. *)
Definition add_if_same_key (cls : Report.over_class)
    (e : Report.key * Report.section) : Report.key * Report.section :=
  if Report.key_equal (fst e) (Report.key_of cls)
  then (fst e, Report.append_meeting (snd e) (Report.meeting_of cls))
  else e.

(** What the grouping loop maintains once the records [seen] are grouped
    into [consolidated]. *)
Definition grouped (seen : list Report.over_class)
    (consolidated : list (Report.key * Report.section)) : Prop :=
  NoDup (map (fun e => canonical_key (fst e)) consolidated)
  /\ (forall k s, In (k, s) consolidated ->
        Report.sec_meetings s = meetings_with_key k seen
        /\ exists before cls after,
            seen = before ++ cls :: after
            /\ k = Report.key_of cls /\ shows s cls
            /\ Forall (fun c => Report.key_equal k (Report.key_of c) = false)
                      before)
  /\ (forall cls, In cls seen ->
        exists e, In e consolidated
                  /\ Report.key_equal (fst e) (Report.key_of cls) = true).

(** Data with two meetings flagged and one not. *)
Definition flagged_data : list (dict Json.json) :=
  [[("capacity_from_csv", Json.Bool true); ("course", Json.Str "ALE 2170");
    ("section", Json.Str "001"); ("building", Json.Str "SCI");
    ("day", Json.Str "M");
    ("current_enrollment", Json.Int 31); ("capacity", Json.Int 30)];
   [("capacity_from_csv", Json.Int 1); ("course", Json.Str "ALE 2170");
    ("section", Json.Str "001"); ("building", Json.Str "SCI");
    ("day", Json.Str "W");
    ("current_enrollment", Json.Int 31); ("capacity", Json.Int 30)];
   [("course", Json.Str "ALE 2171")]].

(** Two meetings of one section found over capacity, with the course
    written once as 1 and once as [True]. *)
Definition sample_over : list Report.over_class :=
  [{| Report.cls_course := Json.Int 1; Report.cls_title := Json.Null;
      Report.cls_section := Json.Str "001"; Report.cls_building := "SCI";
      Report.cls_room := "101"; Report.cls_current_enrollment := Json.Int 31;
      Report.cls_capacity := Json.Int 30; Report.cls_day := Json.Str "M";
      Report.cls_start_minutes := Json.Int 540;
      Report.cls_end_minutes := Json.Int 590 |};
   {| Report.cls_course := Json.Bool true; Report.cls_title := Json.Null;
      Report.cls_section := Json.Str "001"; Report.cls_building := "LIB";
      Report.cls_room := "7"; Report.cls_current_enrollment := Json.Int 40;
      Report.cls_capacity := Json.Int 30; Report.cls_day := Json.Str "W";
      Report.cls_start_minutes := Json.Int 540;
      Report.cls_end_minutes := Json.Int 590 |}].

(* ================================================================= *)
(** ** [word_frequency.py]: [extract_dialogue_words] *)

Module WordFrequency.

(** The class [[A-Z\s]] of the speaker pattern. *)
Definition in_name (c : ascii) : bool := between 65 90 c || isspace c.

Definition is_letter (c : ascii) : bool := between 97 122 c || between 65 90 c.

Definition is_apostrophe (c : ascii) : bool := Ascii.eqb c "'"%char.

(** The class [[a-zA-Z' ]] whose complement is deleted. *)
Definition kept (c : ascii) : bool :=
  is_letter c || is_apostrophe c || Ascii.eqb c " "%char.

(** [re.sub(r'^[A-Z\s]+:\s*', '', line)]: the pattern is anchored at the
    start, so at most one match is replaced; the run of class characters is
    taken whole, since a colon is not in the class. *)
Definition remove_speaker (line : string) : string :=
  if starts_with in_name line then
    match lstrip_by in_name line with
    | String c rest =>
        if Ascii.eqb c colon then lstrip_by isspace rest else line
    | EmptyString => line
    end
  else line.

(** [re.sub(r"[^a-zA-Z' ]", '', line)] *)
Fixpoint remove_punctuation (line : string) : string :=
  match line with
  | EmptyString => EmptyString
  | String c r =>
      if kept c then String c (remove_punctuation r) else remove_punctuation r
  end.

(** [s.split()]: the maximal runs of characters that are not blanks. *)
Fixpoint split_blanks (s : string) : list string :=
  match s with
  | EmptyString => []
  | String c r =>
      if isspace c then split_blanks r
      else if starts_with isspace r || is_empty r
           then String c EmptyString :: split_blanks r
           else match split_blanks r with
                | w :: ws => String c w :: ws
                | [] => [String c EmptyString]
                end
  end.

(** [[w.strip(APOSTROPHE) for w in words if w.strip(APOSTROPHE)]] *)
Fixpoint strip_apostrophes (words : list string) : list string :=
  match words with
  | [] => []
  | w :: rest =>
      if is_empty (strip_by is_apostrophe w) then strip_apostrophes rest
      else strip_by is_apostrophe w :: strip_apostrophes rest
  end.

(** The body of the loop from the deletion of punctuation on. *)
Definition clean_words (line : string) : list string :=
  let line := remove_punctuation line in
  let line := strip (lower line) in
  strip_apostrophes (split_blanks line).

(** One iteration of [for line in lines]: the words the line adds. *)
Definition line_words (line : string) : list string :=
  let line := strip line in
  if is_empty line then []
  else clean_words (remove_speaker line).

(** [extract_dialogue_words], from the lines [readlines] returns. *)
Definition extract_dialogue_words (lines : list string) : list string :=
  fold_left (fun dialogue_words line => dialogue_words ++ line_words line)
            lines [].

End WordFrequency.

(* ================================================================= *)
(** ** Vocabulary for the words of a dialogue *)

Definition is_lower (c : ascii) : bool := between 97 122 c.

Definition is_upper (c : ascii) : bool := between 65 90 c.

(** What a word may be made of. *)
Definition word_char (c : ascii) : bool :=
  is_lower c || WordFrequency.is_apostrophe c.

(** Lower-case letters, apostrophes and blanks. *)
Definition lowered (c : ascii) : bool :=
  is_lower c || WordFrequency.is_apostrophe c || Ascii.eqb c " "%char.

(* ================================================================= *)
(** * Proofs *)

(** ** Characters *)

Ltac by_cases_on_char c :=
  destruct c as [[] [] [] [] [] [] [] []]; try reflexivity; try discriminate.

Lemma isspace_upper_char (c : ascii) : isspace (upper_char c) = isspace c.
Proof. by_cases_on_char c. Qed.

Lemma lower_upper_char (c : ascii) : lower_char (upper_char c) = lower_char c.
Proof. by_cases_on_char c. Qed.

Lemma upper_lower_char (c : ascii) : upper_char (lower_char c) = upper_char c.
Proof. by_cases_on_char c. Qed.


Lemma recognized_day_map (c : ascii) :
  dict_get day_map (String (upper_char c) "") =
  if recognized c then Some (String (upper_char c) "") else None.
Proof. by_cases_on_char c. Qed.




(** ** Strings *)

Lemma eqb_empty (s : string) : String.eqb s "" = is_empty s.
Proof. destruct s; reflexivity. Qed.

Lemma lower_upper (s : string) : lower (upper s) = lower s.
Proof.
  induction s as [|c r IH]; simpl; [reflexivity|].
  now rewrite lower_upper_char, IH.
Qed.

Lemma upper_lower (s : string) : upper (lower s) = upper s.
Proof.
  induction s as [|c r IH]; simpl; [reflexivity|].
  now rewrite upper_lower_char, IH.
Qed.

(** Comparing the upper-cased text with an upper-case token is comparing
    case-insensitively. *)
Lemma upper_eqb_token (s token : string) :
  upper token = token ->
  String.eqb (upper s) token = same_ignoring_case s token.
Proof.
  intros Htok. unfold same_ignoring_case.
  destruct (String.eqb_spec (upper s) token) as [E|E];
    destruct (String.eqb_spec (lower s) (lower token)) as [F|F];
    try reflexivity; exfalso.
  - apply F. now rewrite <- E, lower_upper.
  - apply E. rewrite <- Htok, <- (upper_lower s), F. apply upper_lower.
Qed.

(** ** Exceptions never leave the helpers *)

Lemma int_raises_only_ValueError (s : string) (e : exn) :
  int s = Raise e -> e = ValueError.
Proof.
  unfold int. destruct (split_sign _) as [sign body].
  destruct body as [|c r]; [congruence|].
  destruct (isdigit c); [|congruence].
  destruct (scan_digits _ _ _) as [[n rest]|]; [|congruence].
  destruct (is_empty _); congruence.
Qed.

Lemma unpack2_raises_only_ValueError (pieces : list string) (e : exn) :
  unpack2_map_int pieces = Raise e -> e = ValueError.
Proof.
  unfold unpack2_map_int.
  destruct pieces as [|a [|b rest]]; [congruence| |].
  - destruct (int a) eqn:Ea; simpl; [congruence|].
    intros H; inversion H; subst. eapply int_raises_only_ValueError; eauto.
  - destruct (int a) eqn:Ea; simpl;
      [|intros H; inversion H; subst; eapply int_raises_only_ValueError; eauto].
    destruct (int b) eqn:Eb; simpl;
      [|intros H; inversion H; subst; eapply int_raises_only_ValueError; eauto].
    destruct rest as [|c rest']; [congruence|].
    destruct (int c) eqn:Ec; simpl; [congruence|].
    intros H; inversion H; subst. eapply int_raises_only_ValueError; eauto.
Qed.

Lemma time_to_minutes_total (t : string) :
  time_to_minutes t = Ok (minutes_of t).
Proof.
  unfold minutes_of.
  assert (H : exists o, time_to_minutes t = Ok o).
  { unfold time_to_minutes.
    destruct (is_empty t || String.eqb (strip t) ""); [eauto|].
    destruct (unpack2_map_int _) as [[h m]|e] eqn:E; simpl; [eauto|].
    apply unpack2_raises_only_ValueError in E. subst. simpl. eauto. }
  destruct H as [o ->]. reflexivity.
Qed.

Lemma enrollment_of_total (t : string) :
  enrollment_of t = Ok (enrollment t).
Proof.
  unfold enrollment.
  assert (H : exists o, enrollment_of t = Ok o).
  { unfold enrollment_of.
    destruct (is_empty t); simpl; [eauto|].
    destruct (int t) as [n|e] eqn:E; simpl; [eauto|].
    apply int_raises_only_ValueError in E. subst. simpl. eauto. }
  destruct H as [o ->]. reflexivity.
Qed.

(** ** Header normalization and field extraction *)

Lemma dict_get_set {V : Type} (d : dict V) (k name : string) (v : V) :
  dict_get (dict_set d k v) name =
  if String.eqb k name then Some v else dict_get d name.
Proof.
  induction d as [|[k' v'] d IH]; simpl.
  - reflexivity.
  - destruct (String.eqb_spec k' k) as [->|Hk]; simpl.
    + destruct (String.eqb k name); reflexivity.
    + rewrite IH.
      destruct (String.eqb_spec k' name) as [->|Hn]; [|reflexivity].
      destruct (String.eqb_spec k name); [congruence|reflexivity].
Qed.

Lemma normalize_keys_ok (row : raw_row) :
  well_formed row = true ->
  forall d0, exists d,
    normalize_keys row d0 = Ok d /\
    forall name,
      dict_get d name =
      match lookup row name with
      | Some x => Some x
      | None => dict_get d0 name
      end.
Proof.
  induction row as [|[k v] rest IH]; simpl; intros Hwf d0.
  - exists d0. split; reflexivity.
  - apply andb_true_iff in Hwf as [Hkv Hrest].
    destruct k as [k|]; [|destruct v; discriminate].
    destruct (IH Hrest (dict_set d0 (strip k) v)) as (d & Hd & Hget).
    exists d. split; [exact Hd|].
    intros name. rewrite Hget, dict_get_set.
    destruct (lookup rest name); [reflexivity|].
    destruct (String.eqb (strip k) name); reflexivity.
Qed.

Lemma lookup_plain (row : raw_row) (name : string) (v : pyval) :
  well_formed row = true -> lookup row name = Some v ->
  v = PyNone \/ exists s, v = PyStr s.
Proof.
  induction row as [|[k x] rest IH]; simpl; intros Hwf H; [discriminate|].
  apply andb_true_iff in Hwf as [Hkv Hrest].
  destruct (lookup rest name) as [y|].
  - inversion H; subst. now apply IH.
  - destruct k as [k|]; [|discriminate].
    destruct (String.eqb (strip k) name); [|discriminate].
    inversion H; subst.
    destruct v as [|s|l]; [now left|right; eauto|discriminate].
Qed.

Lemma text_field_ok (row : raw_row) (d : dict pyval) (name : string) :
  well_formed row = true ->
  (forall n, dict_get d n = lookup row n) ->
  text_field d name = Ok (field row name).
Proof.
  intros Hwf Hd. unfold text_field, get_or_none, field, cell.
  rewrite Hd.
  destruct (lookup row name) as [v|] eqn:E; [|reflexivity].
  destruct (lookup_plain _ _ _ Hwf E) as [->|[s ->]]; [reflexivity|].
  destruct s; reflexivity.
Qed.

(** ** The loop body on a well-formed row *)

Lemma fold_append_records {A : Type} (f : A -> record) (l : list A)
    (acc : list record) :
  fold_left (fun acc x => acc ++ [f x]) l acc = acc ++ map f l.
Proof.
  revert acc. induction l as [|x l IH]; intros acc; simpl.
  - now rewrite app_nil_r.
  - rewrite IH, <- app_assoc. reflexivity.
Qed.

Lemma loop_body_records (cleaned_records : list record) (row : raw_row) :
  well_formed row = true ->
  loop_body cleaned_records row = Ok (cleaned_records ++ row_records row).
Proof.
  intros Hwf.
  destruct (normalize_keys_ok row Hwf []) as (d & Hd & Hget).
  assert (Hget' : forall n, dict_get d n = lookup row n).
  { intros n. rewrite Hget. destruct (lookup row n); reflexivity. }
  unfold loop_body. rewrite Hd. cbn [bind].
  rewrite !(text_field_ok row d _ Hwf Hget'). cbn [bind].
  rewrite !enrollment_of_total. cbn [bind].
  unfold row_records, textual_skip.
  destruct (String.eqb (upper (field row "Start Time")) "TBA"
            || String.eqb (upper (field row "End Time")) "TBA"
            || is_empty (field row "Start Time")
            || is_empty (field row "End Time")); cbn [orb];
    [now rewrite app_nil_r|].
  destruct (String.eqb (upper (field row "Bldg")) "ONLINE"
            || is_empty (field row "Bldg")
            || String.eqb (strip (field row "Bldg")) ""); cbn [orb];
    [now rewrite app_nil_r|].
  destruct (String.eqb (upper (field row "Room")) "SEE NOTES");
    [now rewrite app_nil_r|].
  rewrite !time_to_minutes_total. cbn [bind].
  destruct (minutes_of (field row "Start Time")) as [sm|];
    [|now rewrite app_nil_r].
  destruct (minutes_of (field row "End Time")) as [em|];
    [|now rewrite app_nil_r].
  destruct (parse_days (field row "Days")) as [|day rest] eqn:Edays;
    cbn [is_nil]; [now rewrite app_nil_r|].
  rewrite (fold_append_records (record_of row sm em)). reflexivity.
Qed.

Lemma for_each_row_records (rows : list raw_row) :
  Forall (fun row => well_formed row = true) rows ->
  forall cleaned_records,
    for_each_row rows cleaned_records =
    Ok (cleaned_records ++ flat_map row_records rows).
Proof.
  induction 1 as [|row rest Hrow Hrest IH]; intros acc; simpl.
  - now rewrite app_nil_r.
  - rewrite (loop_body_records acc row Hrow). cbn [bind].
    rewrite IH, <- app_assoc. reflexivity.
Qed.

(* ================================================================= *)
(** ** [parse_days] *)

Lemma set_mem_In (x : string) (s : list string) :
  set_mem x s = true <-> In x s.
Proof.
  unfold set_mem. rewrite existsb_exists. split.
  - intros (y & Hy & E). apply String.eqb_eq in E. now subst.
  - intros H. exists x. split; [exact H|apply String.eqb_refl].
Qed.

Lemma set_mem_not_In (x : string) (s : list string) :
  set_mem x s = false <-> ~ In x s.
Proof.
  rewrite <- set_mem_In. destruct (set_mem x s); split; congruence.
Qed.

Lemma dedup_loop (l : list string) :
  forall seen unique_days,
    snd (fold_left dedup_step l (seen, unique_days)) =
    unique_days ++ dedup_from seen l.
Proof.
  induction l as [|x r IH]; intros seen uniq; simpl.
  - now rewrite app_nil_r.
  - unfold set_add. destruct (set_mem x seen) eqn:E.
    + apply IH.
    + rewrite IH, <- app_assoc. reflexivity.
Qed.

Lemma collect_loop (s : string) :
  forall days,
    fold_left
      (fun days char =>
         match dict_get day_map char with
         | Some d => days ++ [d]
         | None => days
         end)
      (chars (upper s)) days
    = days ++ day_letters s.
Proof.
  induction s as [|c r IH]; intros days.
  - simpl. now rewrite app_nil_r.
  - cbn [upper chars fold_left day_letters].
    rewrite recognized_day_map. destruct (recognized c).
    + rewrite IH, <- app_assoc. reflexivity.
    + apply IH.
Qed.

Lemma parse_days_closed_form (s : string) :
  parse_days s = dedup_from [] (day_letters s).
Proof.
  unfold parse_days, collect_days. destruct s as [|c r]; [reflexivity|].
  cbn [is_empty]. rewrite collect_loop, dedup_loop. reflexivity.
Qed.

Lemma dedup_from_In (l : list string) :
  forall seen d, In d (dedup_from seen l) <-> In d l /\ ~ In d seen.
Proof.
  induction l as [|x r IH]; intros seen d; simpl.
  - tauto.
  - destruct (set_mem x seen) eqn:E.
    + apply set_mem_In in E. rewrite IH. split.
      * tauto.
      * intros [[->|H] Hn]; tauto.
    + apply set_mem_not_In in E. simpl. rewrite IH. simpl. split.
      * intros [->|[H Hn]]; tauto.
      * intros [[->|H] Hn]; [now left|].
        destruct (string_dec x d) as [->|Hne]; [now left|right; tauto].
Qed.

Lemma dedup_from_NoDup (l : list string) :
  forall seen, NoDup (dedup_from seen l).
Proof.
  induction l as [|x r IH]; intros seen; simpl.
  - constructor.
  - destruct (set_mem x seen); [apply IH|].
    constructor; [|apply IH].
    rewrite dedup_from_In. simpl. tauto.
Qed.

Lemma day_letters_In (s : string) (d : string) :
  In d (day_letters s) <->
  exists c, occurs c s = true /\ recognized c = true
            /\ d = String (upper_char c) "".
Proof.
  induction s as [|c r IH]; simpl.
  - split; [tauto|]. intros (c & H & _). discriminate.
  - split.
    + destruct (recognized c) eqn:E.
      * intros [<-|H].
        -- exists c. now rewrite Ascii.eqb_refl.
        -- apply IH in H as (c' & Ho & Hr & ->). exists c'.
           rewrite Ho, orb_true_r. auto.
      * intros H. apply IH in H as (c' & Ho & Hr & ->). exists c'.
        rewrite Ho, orb_true_r. auto.
    + intros (c' & Ho & Hr & ->). apply orb_true_iff in Ho as [Ho|Ho].
      * apply Ascii.eqb_eq in Ho. subst. rewrite Hr. now left.
      * assert (In (String (upper_char c') "") (day_letters r))
          by (apply IH; eauto).
        destruct (recognized c); [now right|assumption].
Qed.

Lemma recognized_code (c : ascii) :
  recognized c = set_mem (String (upper_char c) "") weekday_codes.
Proof. by_cases_on_char c. Qed.



Lemma day_letters_codes (s : string) (d : string) :
  In d (day_letters s) -> In d weekday_codes.
Proof.
  rewrite day_letters_In. intros (c & _ & Hr & ->).
  rewrite recognized_code in Hr. now apply set_mem_In.
Qed.





Lemma day_letters_nil (s : string) :
  day_letters s = [] <-> all_chars (fun c => negb (recognized c)) s = true.
Proof.
  induction s as [|c r IH]; simpl; [tauto|].
  destruct (recognized c); simpl; [split; discriminate|exact IH].
Qed.

Lemma dedup_from_nil (l : list string) :
  dedup_from [] l = [] <-> l = [].
Proof.
  destruct l; simpl; split; congruence.
Qed.

Lemma parse_days_nil (s : string) :
  parse_days s = [] <-> all_chars (fun c => negb (recognized c)) s = true.
Proof.
  now rewrite parse_days_closed_form, dedup_from_nil, day_letters_nil.
Qed.





(* ================================================================= *)
(** ** [time_to_minutes] *)

Lemma upto_In (n : nat) (z : Z) : 0 <= z < Z.of_nat n -> In z (upto n).
Proof.
  intros H. unfold upto. apply in_map_iff. exists (Z.to_nat z).
  split; [lia|]. apply in_seq. lia.
Qed.

Lemma every_minute_encodes_true : every_minute_encodes = true.
Proof. vm_compute. reflexivity. Qed.

Lemma time_to_minutes_hh_mm (h m : Z) :
  0 <= h <= 23 -> 0 <= m <= 59 ->
  time_to_minutes (hh_mm h m) = Ok (Some (h * 60 + m)).
Proof.
  intros Hh Hm.
  pose proof every_minute_encodes_true as H. unfold every_minute_encodes in H.
  rewrite forallb_forall in H.
  specialize (H h (upto_In 24 h ltac:(lia))).
  rewrite forallb_forall in H.
  specialize (H m (upto_In 60 m ltac:(lia))).
  unfold encodes in H.
  destruct (time_to_minutes (hh_mm h m)) as [[r|]|]; try discriminate.
  apply Z.eqb_eq in H. now subst.
Qed.

(** C2. On every zero-padded [HH:MM] with HH in 00..23 and MM in 00..59 the
    time encoder returns [HH*60+MM] (870 for 14:30, 0 for 00:00, 1439 for
    23:59); on the empty text, TBA, 14, 14: and ab:cd it returns [None]
    and raises nothing. *)
Theorem time_to_minutes_valid_and_unparseable :
  (forall h m : Z,
      0 <= h <= 23 -> 0 <= m <= 59 ->
      time_to_minutes (hh_mm h m) = Ok (Some (h * 60 + m)))
  /\ time_to_minutes "14:30" = Ok (Some 870)
  /\ time_to_minutes "00:00" = Ok (Some 0)
  /\ time_to_minutes "23:59" = Ok (Some 1439)
  /\ time_to_minutes "" = Ok None
  /\ time_to_minutes "TBA" = Ok None
  /\ time_to_minutes "14" = Ok None
  /\ time_to_minutes "14:" = Ok None
  /\ time_to_minutes "ab:cd" = Ok None.
Proof.
  split; [exact time_to_minutes_hh_mm|].
  repeat split; reflexivity.
Qed.

Lemma time_to_minutes_valid_and_unparseable_witness :
  hh_mm 9 5 = "09:05" /\ time_to_minutes (hh_mm 9 5) = Ok (Some (9 * 60 + 5)).
Proof.
  split; [reflexivity|].
  apply (proj1 time_to_minutes_valid_and_unparseable 9 5); lia.
Defined.

(* ================================================================= *)
(** ** Stripping *)

Lemma strip_by_empty (p : ascii -> bool) (s : string) :
  is_empty (strip_by p s) = all_chars p s.
Proof.
  unfold strip_by. induction s as [|c r IH]; simpl; [reflexivity|].
  destruct (p c) eqn:E; simpl; [exact IH|].
  now rewrite E.
Qed.

Lemma lstrip_by_starts (p : ascii -> bool) (s : string) :
  starts_with p (lstrip_by p s) = false.
Proof.
  induction s as [|c r IH]; simpl; [reflexivity|].
  destruct (p c) eqn:E; simpl; [exact IH|exact E].
Qed.

Lemma rstrip_by_ends (p : ascii -> bool) (s : string) :
  ends_with p (rstrip_by p s) = false.
Proof.
  induction s as [|c r IH]; simpl; [reflexivity|].
  destruct (rstrip_by p r) as [|c' r'] eqn:Er; simpl.
  - rewrite andb_true_r. destruct (p c) eqn:E; simpl; [reflexivity|exact E].
  - rewrite andb_false_r. exact IH.
Qed.

Lemma rstrip_by_starts (p : ascii -> bool) (s : string) :
  starts_with p s = false -> starts_with p (rstrip_by p s) = false.
Proof.
  destruct s as [|c r]; simpl; [reflexivity|].
  intros E. now rewrite E.
Qed.

Lemma strip_by_bare (p : ascii -> bool) (s : string) :
  bare p (strip_by p s) = true.
Proof.
  unfold bare, strip_by.
  rewrite rstrip_by_starts by apply lstrip_by_starts.
  now rewrite rstrip_by_ends.
Qed.

Lemma lstrip_by_fixed (p : ascii -> bool) (s : string) :
  starts_with p s = false -> lstrip_by p s = s.
Proof. destruct s as [|c r]; simpl; [reflexivity|]. now intros ->. Qed.

Lemma rstrip_by_fixed (p : ascii -> bool) (s : string) :
  ends_with p s = false -> rstrip_by p s = s.
Proof.
  induction s as [|c r IH]; simpl; [reflexivity|].
  destruct r as [|c' r'].
  - simpl. now intros ->.
  - intros H. rewrite (IH H). simpl. now rewrite andb_false_r.
Qed.

Lemma strip_by_fixed (p : ascii -> bool) (s : string) :
  bare p s = true -> strip_by p s = s.
Proof.
  unfold bare, strip_by. intros H.
  apply andb_true_iff in H as [H1 H2].
  apply negb_true_iff in H1, H2.
  now rewrite lstrip_by_fixed, rstrip_by_fixed.
Qed.

(* ================================================================= *)
(** ** The row filter *)

Lemma unparseable_minutes_of (t : string) :
  unparseable t = true <-> minutes_of t = None.
Proof.
  unfold unparseable. rewrite time_to_minutes_total.
  destruct (minutes_of t); split; congruence.
Qed.

Lemma is_empty_all_chars (p : ascii -> bool) (s : string) :
  is_empty s = true -> all_chars p s = true.
Proof. destruct s; [reflexivity|discriminate]. Qed.

Lemma textual_skip_iff (row : raw_row) :
  textual_skip row = true <->
  (same_ignoring_case (field row "Start Time") "TBA" = true
   \/ same_ignoring_case (field row "End Time") "TBA" = true
   \/ is_empty (field row "Start Time") = true
   \/ is_empty (field row "End Time") = true)
  \/ (same_ignoring_case (field row "Bldg") "ONLINE" = true
      \/ all_chars isspace (field row "Bldg") = true)
  \/ same_ignoring_case (field row "Room") "SEE NOTES" = true.
Proof.
  unfold textual_skip.
  rewrite !(upper_eqb_token _ "TBA"), (upper_eqb_token _ "ONLINE"),
    (upper_eqb_token _ "SEE NOTES") by reflexivity.
  rewrite eqb_empty. unfold strip. rewrite strip_by_empty.
  rewrite !orb_true_iff.
  pose proof (is_empty_all_chars isspace (field row "Bldg")).
  tauto.
Qed.

Lemma row_records_nil (row : raw_row) :
  row_records row = [] <->
  textual_skip row = true
  \/ minutes_of (field row "Start Time") = None
  \/ minutes_of (field row "End Time") = None
  \/ parse_days (field row "Days") = [].
Proof.
  unfold row_records.
  destruct (textual_skip row); [tauto|].
  destruct (minutes_of (field row "Start Time")) as [sm|];
    [|split; [tauto|reflexivity]].
  destruct (minutes_of (field row "End Time")) as [em|];
    [|split; [tauto|reflexivity]].
  destruct (parse_days (field row "Days")) as [|d l]; simpl.
  - tauto.
  - split; [discriminate|].
    intros [H|[H|[H|H]]]; discriminate.
Qed.

Lemma excluded_iff (row : raw_row) :
  excluded row = true <-> row_records row = [].
Proof.
  rewrite row_records_nil, textual_skip_iff.
  rewrite <- !unparseable_minutes_of, parse_days_nil.
  unfold excluded, excluded_as_listed.
  rewrite !orb_true_iff.
  pose proof (is_empty_all_chars isspace (field row "Bldg")).
  tauto.
Qed.




(* ================================================================= *)
(** ** Counting the records of a row *)

Lemma recognized_cases (c : ascii) :
  recognized c = true <->
  exists u l, In (u, l) weekday_letters /\ (c = u \/ c = l).
Proof.
  unfold recognized. rewrite existsb_exists. split.
  - intros ([u l] & Hin & H). exists u, l. split; [exact Hin|].
    apply orb_true_iff in H as [H|H]; apply Ascii.eqb_eq in H; auto.
  - intros (u & l & Hin & H). exists (u, l). split; [exact Hin|].
    destruct H as [->| ->]; rewrite Ascii.eqb_refl;
      [reflexivity|apply orb_true_r].
Qed.

Lemma weekday_letters_upper (u l : ascii) :
  In (u, l) weekday_letters -> upper_char u = u /\ upper_char l = u.
Proof.
  simpl. intros [H|[H|[H|[H|[H|[]]]]]]; inversion H; subst; split; reflexivity.
Qed.

Lemma mentioned_codes_In (s : string) (d : string) :
  In d (mentioned_codes s) <-> In d (parse_days s).
Proof.
  rewrite parse_days_closed_form, dedup_from_In, day_letters_In.
  unfold mentioned_codes. rewrite in_map_iff. split.
  - intros ([u l] & <- & H). apply filter_In in H as [Hin Hocc].
    destruct (weekday_letters_upper u l Hin) as [Hu Hl].
    split; [|tauto].
    apply orb_true_iff in Hocc as [Hocc|Hocc].
    + exists u. rewrite Hu. repeat split; [exact Hocc|].
      apply recognized_cases. eauto.
    + exists l. rewrite Hl. repeat split; [exact Hocc|].
      apply recognized_cases. eauto.
  - intros [(c & Hocc & Hrec & ->) _].
    apply recognized_cases in Hrec as (u & l & Hin & Hc).
    destruct (weekday_letters_upper u l Hin) as [Hu Hl].
    exists (u, l). split.
    + destruct Hc as [->| ->]; congruence.
    + apply filter_In. split; [exact Hin|].
      destruct Hc as [->| ->]; rewrite Hocc;
        [reflexivity|apply orb_true_r].
Qed.

Lemma mentioned_codes_NoDup (s : string) : NoDup (mentioned_codes s).
Proof.
  unfold mentioned_codes, weekday_letters. cbn [filter].
  destruct (occurs "M" s || occurs "m" s);
    destruct (occurs "T" s || occurs "t" s);
    destruct (occurs "W" s || occurs "w" s);
    destruct (occurs "R" s || occurs "r" s);
    destruct (occurs "F" s || occurs "f" s);
    cbn [map];
    repeat (constructor; [simpl; intuition discriminate|]);
    constructor.
Qed.

Lemma parse_days_length (s : string) :
  List.length (parse_days s) = distinct_weekdays s.
Proof.
  transitivity (List.length (mentioned_codes s)).
  - apply Permutation_length, NoDup_Permutation.
    + rewrite parse_days_closed_form. apply dedup_from_NoDup.
    + apply mentioned_codes_NoDup.
    + intros d. symmetry. apply mentioned_codes_In.
  - unfold mentioned_codes, distinct_weekdays. apply length_map.
Qed.

Lemma row_records_length (row : raw_row) :
  List.length (row_records row) =
  if excluded row then 0%nat else distinct_weekdays (field row "Days").
Proof.
  destruct (excluded row) eqn:E.
  - apply excluded_iff in E. now rewrite E.
  - assert (Hn : row_records row <> []).
    { intros H. apply excluded_iff in H. congruence. }
    unfold row_records in *.
    destruct (textual_skip row); [congruence|].
    destruct (minutes_of (field row "Start Time")); [|congruence].
    destruct (minutes_of (field row "End Time")); [|congruence].
    rewrite length_map. apply parse_days_length.
Qed.

Lemma flat_map_length {A B : Type} (f : A -> list B) (l : list A) :
  List.length (flat_map f l) = list_sum (map (fun x => List.length (f x)) l).
Proof.
  induction l as [|x l IH]; simpl; [reflexivity|].
  now rewrite length_app, IH.
Qed.




(* ================================================================= *)
(** ** The records of a row *)

Lemma row_records_inv (row : raw_row) (r : record) :
  In r (row_records row) ->
  exists start_minutes end_minutes day,
    r = record_of row start_minutes end_minutes day
    /\ minutes_of (field row "Start Time") = Some start_minutes
    /\ minutes_of (field row "End Time") = Some end_minutes
    /\ In day (parse_days (field row "Days")).
Proof.
  unfold row_records. destruct (textual_skip row); [intros []|].
  destruct (minutes_of (field row "Start Time")) as [sm|]; [|intros []].
  destruct (minutes_of (field row "End Time")) as [em|]; [|intros []].
  intros H. apply in_map_iff in H as (day & <- & Hday). eauto 10.
Qed.

Lemma row_records_shape (row : raw_row) :
  excluded row = false ->
  exists start_minutes end_minutes,
    minutes_of (field row "Start Time") = Some start_minutes
    /\ minutes_of (field row "End Time") = Some end_minutes
    /\ row_records row =
       map (record_of row start_minutes end_minutes)
           (parse_days (field row "Days")).
Proof.
  intros E.
  assert (Hn : row_records row <> []).
  { intros H. apply excluded_iff in H. congruence. }
  unfold row_records in *.
  destruct (textual_skip row); [congruence|].
  destruct (minutes_of (field row "Start Time")) as [sm|]; [|congruence].
  destruct (minutes_of (field row "End Time")) as [em|]; [|congruence].
  eauto.
Qed.



Lemma record_of_keys (row : raw_row) (sm em : Z) (day : string) :
  dict_keys (record_of row sm em day) = names_as_written.
Proof. reflexivity. Qed.

(** The end-to-end example of the specification. *)
Example sample_row_records :
  clean_course_data [sample_row] =
  Ok (map (make_record "ALE 2170" "Intro" "001" "" "SCI" "101" 540 590
             (Some 30) (Some 28))
          ["M"; "W"; "F"]).
Proof. reflexivity. Qed.



(* ================================================================= *)
(** ** Minutes *)

Lemma minutes_of_hh_mm_range (h m a : Z) :
  0 <= h <= 23 -> 0 <= m <= 59 ->
  minutes_of (hh_mm h m) = Some a -> 0 <= a <= 1439.
Proof.
  intros Hh Hm. unfold minutes_of.
  rewrite time_to_minutes_hh_mm by assumption.
  intros H. inversion H. lia.
Qed.

(** C7 (as amended).  In every emitted record [start_minutes] and
    [end_minutes] are integers, never null: the values the time encoder
    returns for the row's start and end time.  No range is enforced; the
    value lies in 0..1439 when the time text is a zero-padded [HH:MM] with HH
    in 00..23 and MM in 00..59. *)
Theorem minutes_are_encoded_times (cleaned_records : list record) (row : raw_row) :
  well_formed row = true ->
  exists recs,
    loop_body cleaned_records row = Ok (cleaned_records ++ recs)
    /\ Forall
         (fun r =>
            exists a b,
              dict_get r "start_minutes" = Some (JInt a)
              /\ dict_get r "end_minutes" = Some (JInt b)
              /\ time_to_minutes (field row "Start Time") = Ok (Some a)
              /\ time_to_minutes (field row "End Time") = Ok (Some b)
              /\ (forall h m, 0 <= h <= 23 -> 0 <= m <= 59 ->
                              field row "Start Time" = hh_mm h m ->
                              0 <= a <= 1439)
              /\ (forall h m, 0 <= h <= 23 -> 0 <= m <= 59 ->
                              field row "End Time" = hh_mm h m ->
                              0 <= b <= 1439))
         recs.
Proof.
  intros Hwf. exists (row_records row).
  split; [now apply loop_body_records|].
  apply Forall_forall. intros r Hr.
  apply row_records_inv in Hr as (sm & em & day & -> & Hs & He & _).
  exists sm, em. rewrite !time_to_minutes_total, Hs, He.
  do 4 (split; [reflexivity|]).
  split; intros h m Hh Hm E.
  - rewrite E in Hs. eapply minutes_of_hh_mm_range; eauto.
  - rewrite E in He. eapply minutes_of_hh_mm_range; eauto.
Qed.

Lemma minutes_are_encoded_times_witness :
  exists recs,
    loop_body [] (with_cell "Start Time" "25:99") = Ok recs
    /\ Forall
         (fun r => exists a b,
              dict_get r "start_minutes" = Some (JInt a)
              /\ dict_get r "end_minutes" = Some (JInt b))
         recs.
Proof.
  destruct (minutes_are_encoded_times [] (with_cell "Start Time" "25:99"))
    as (recs & Hrun & Hall); [reflexivity|].
  exists recs. split; [exact Hrun|].
  eapply Forall_impl; [|exact Hall].
  intros r (a & b & Ha & Hb & _). eauto.
Defined.

(** C7, counterexample.  With start time 25:99 the row is kept and its
    records carry 1599, outside 0..1439. *)
Lemma minutes_can_exceed_the_day :
  ~ (forall recs,
        loop_body [] (with_cell "Start Time" "25:99") = Ok recs ->
        Forall minutes_in_day recs).
Proof.
  intros H.
  specialize (H _ eq_refl).
  apply Forall_inv in H. destruct H as (a & b & Ha & _ & Hrange & _).
  vm_compute in Ha. inversion Ha. subst a. lia.
Qed.

(* ================================================================= *)
(** ** Field names *)

(** C8 (as amended).  Every emitted record has exactly the keys course,
    title, section, type, building, room, day, start_minutes, end_minutes,
    max_enrollment, current_enrollment, in this order. *)
Theorem record_field_names (cleaned_records : list record) (row : raw_row) :
  well_formed row = true ->
  exists recs,
    loop_body cleaned_records row = Ok (cleaned_records ++ recs)
    /\ Forall (fun r => dict_keys r = names_as_written) recs.
Proof.
  intros Hwf. exists (row_records row).
  split; [now apply loop_body_records|].
  apply Forall_forall. intros r Hr.
  apply row_records_inv in Hr as (sm & em & day & -> & _).
  apply record_of_keys.
Qed.

Lemma record_field_names_witness :
  exists recs,
    loop_body [] sample_row = Ok recs
    /\ Forall (fun r => dict_keys r = names_as_written) recs.
Proof.
  destruct (record_field_names [] sample_row) as (recs & Hrun & Hall);
    [reflexivity|].
  exists recs. split; [exact Hrun|exact Hall].
Defined.

(** C8, counterexample.  The records of the specification's own example row
    do not have the camel-case names of section 3: the minutes and
    enrollment keys are written in snake case. *)
Lemma record_names_are_not_as_specified :
  ~ (forall recs,
        loop_body [] sample_row = Ok recs ->
        Forall (fun r => dict_keys r = names_as_specified) recs).
Proof.
  intros H.
  specialize (H _ eq_refl).
  apply Forall_inv in H. vm_compute in H. discriminate H.
Qed.

(* ================================================================= *)
(** ** Integer literals *)

Lemma lstrip_by_empty (p : ascii -> bool) (s : string) :
  is_empty (lstrip_by p s) = all_chars p s.
Proof.
  induction s as [|c r IH]; simpl; [reflexivity|].
  destruct (p c); [exact IH|reflexivity].
Qed.

Lemma lstrip_by_split (p : ascii -> bool) (s : string) :
  exists pre, s = (pre ++ lstrip_by p s)%string /\ all_chars p pre = true.
Proof.
  induction s as [|c r (pre & Hs & Hp)]; simpl.
  - now exists "".
  - destruct (p c) eqn:E.
    + exists (String c pre). simpl. rewrite E, Hp. now rewrite <- Hs.
    + now exists "".
Qed.

Lemma lstrip_by_app (p : ascii -> bool) (pre s : string) :
  all_chars p pre = true -> starts_with p s = false ->
  lstrip_by p (pre ++ s) = s.
Proof.
  intros Hp Hs. induction pre as [|c r IH]; simpl in *.
  - now apply lstrip_by_fixed.
  - apply andb_true_iff in Hp as [-> Hr]. now apply IH.
Qed.










(* ================================================================= *)
(** ** Normalized text *)

Lemma bare_isspace_upper (s : string) :
  bare isspace (upper s) = bare isspace s.
Proof.
  unfold bare. f_equal; f_equal.
  - destruct s; simpl; [reflexivity|apply isspace_upper_char].
  - induction s as [|c r IH]; [reflexivity|].
    destruct r as [|c' r']; simpl in *.
    + apply isspace_upper_char.
    + exact IH.
Qed.

Lemma build_course_code_bare (subj course_num : string) :
  bare isspace (build_course_code subj course_num) = true.
Proof. unfold build_course_code, strip. apply strip_by_bare. Qed.

Lemma normalize_course_type_bare (lec_lab : string) :
  bare isspace (normalize_course_type lec_lab) = true.
Proof.
  unfold normalize_course_type.
  destruct (is_empty lec_lab); [reflexivity|].
  assert (H : bare isspace (upper (strip lec_lab)) = true).
  { rewrite bare_isspace_upper. apply strip_by_bare. }
  unfold type_map. cbn [dict_get].
  repeat match goal with
         | |- context [String.eqb ?a ?b] =>
             destruct (String.eqb a b); [reflexivity|]
         end.
  exact H.
Qed.

Lemma field_bare_quote (row : raw_row) (name : string) :
  bare is_quote (field row name) = true.
Proof. unfold field, strip_quotes. apply strip_by_bare. Qed.

Lemma field_without_quotes (row : raw_row) (name : string) :
  bare is_quote (strip (cell row name)) = true ->
  field row name = strip (cell row name)
  /\ bare isspace (field row name) = true.
Proof.
  intros H. unfold field, strip_quotes.
  rewrite (strip_by_fixed _ _ H). split; [reflexivity|].
  apply strip_by_bare.
Qed.

(** Every layer of quote characters goes, not just one. *)
Example quote_layers_all_stripped :
  strip_quotes (strip (quoted (quoted "Intro"))) = "Intro".
Proof. reflexivity. Qed.

(** C9 (as amended).  Each text field the loop body extracts is the cell
    stripped of blanks at both ends and then of every double-quote character
    at both ends: it never begins or ends with a quote character, and when
    the blank-stripped cell has no quote at either end it is that text and
    has no blank at either end.  An emitted record carries title, section,
    building and room as normalized; its course and type have no blank at
    either end. *)
Theorem fields_are_stripped (cleaned_records : list record) (row : raw_row) :
  well_formed row = true ->
  (exists d,
      normalize_keys row [] = Ok d
      /\ forall name, text_field d name = Ok (strip_quotes (strip (cell row name))))
  /\ (forall name,
         bare is_quote (strip_quotes (strip (cell row name))) = true
         /\ (bare is_quote (strip (cell row name)) = true ->
             strip_quotes (strip (cell row name)) = strip (cell row name)
             /\ bare isspace (strip_quotes (strip (cell row name))) = true))
  /\ exists recs,
      loop_body cleaned_records row = Ok (cleaned_records ++ recs)
      /\ Forall
           (fun r =>
              dict_get r "title" = Some (JStr (field row "Title"))
              /\ dict_get r "section" = Some (JStr (field row "Sec"))
              /\ dict_get r "building" = Some (JStr (field row "Bldg"))
              /\ dict_get r "room" = Some (JStr (field row "Room"))
              /\ exists course type,
                  dict_get r "course" = Some (JStr course)
                  /\ bare isspace course = true
                  /\ dict_get r "type" = Some (JStr type)
                  /\ bare isspace type = true)
           recs.
Proof.
  intros Hwf. split; [|split].
  - destruct (normalize_keys_ok row Hwf []) as (d & Hd & Hget).
    exists d. split; [exact Hd|]. intros name.
    apply (text_field_ok row d name Hwf).
    intros n. rewrite Hget. destruct (lookup row n); reflexivity.
  - intros name. split.
    + apply (field_bare_quote row name).
    + apply (field_without_quotes row name).
  - exists (row_records row). split; [now apply loop_body_records|].
    apply Forall_forall. intros r Hr.
    apply row_records_inv in Hr as (sm & em & day & -> & _).
    do 4 (split; [reflexivity|]).
    exists (build_course_code (field row "Subj") (field row "#")),
      (normalize_course_type (field row "Lec Lab")).
    split; [reflexivity|]. split; [apply build_course_code_bare|].
    split; [reflexivity|apply normalize_course_type_bare].
Qed.

Lemma fields_are_stripped_witness :
  exists recs,
    loop_body [] (with_cell "Title" (quoted " Intro ")) = Ok recs
    /\ recs <> []
    /\ Forall (fun r => dict_get r "title" = Some (JStr " Intro ")) recs.
Proof.
  destruct (fields_are_stripped [] (with_cell "Title" (quoted " Intro ")))
    as (_ & _ & recs & Hrun & Hall); [reflexivity|].
  exists recs. split; [exact Hrun|]. split.
  - vm_compute in Hrun. inversion Hrun. discriminate.
  - eapply Forall_impl; [|exact Hall].
    intros r (Htitle & _). exact Htitle.
Defined.

(** C9, counterexample.  A title cell holding [ Intro ] between quote
    characters keeps its blanks once the quotes are stripped, and the
    emitted records carry the title with a blank at both ends. *)
Lemma quoted_title_keeps_blanks :
  ~ (forall recs,
        loop_body [] (with_cell "Title" (quoted " Intro ")) = Ok recs ->
        Forall texts_trimmed recs).
Proof.
  intros H.
  specialize (H _ eq_refl).
  apply Forall_inv in H.
  specialize (H "title" " Intro " eq_refl).
  discriminate H.
Qed.

(* ================================================================= *)
(** ** Totality of the loop body *)

Lemma lookup_app (row : raw_row) (k name : string) (v : pyval) :
  lookup (row ++ [(Some k, v)]) name =
  if String.eqb (strip k) name then Some v else lookup row name.
Proof.
  induction row as [|[k' v'] rest IH]; simpl.
  - reflexivity.
  - rewrite IH. destruct (String.eqb (strip k) name); reflexivity.
Qed.

Lemma columns_stripped (name : string) :
  In name columns -> strip name = name.
Proof.
  unfold columns. simpl.
  intros H.
  repeat (destruct H as [<-|H]; [reflexivity|]).
  destruct H.
Qed.

Lemma cell_app_absent (row : raw_row) (k : string) (v : pyval) :
  lookup row (strip k) = None ->
  v = PyNone \/ v = PyStr "" ->
  forall name, cell (row ++ [(Some k, v)]) name = cell row name.
Proof.
  intros Hmiss Hv name. unfold cell. rewrite lookup_app.
  destruct (String.eqb_spec (strip k) name) as [<-|Hne]; [|reflexivity].
  rewrite Hmiss. destruct Hv as [->| ->]; reflexivity.
Qed.

Lemma row_records_ext (row row' : raw_row) :
  (forall name, cell row name = cell row' name) ->
  row_records row = row_records row'.
Proof.
  intros H.
  assert (Hf : forall name, field row name = field row' name).
  { intros name. unfold field. now rewrite H. }
  unfold row_records, textual_skip, record_of. now rewrite !Hf.
Qed.

Lemma well_formed_app (row : raw_row) (k : string) (v : pyval) :
  well_formed row = true -> v = PyNone \/ v = PyStr "" ->
  well_formed (row ++ [(Some k, v)]) = true.
Proof.
  intros Hwf Hv. unfold well_formed. rewrite forallb_app.
  fold (well_formed row). rewrite Hwf.
  destruct Hv as [->| ->]; reflexivity.
Qed.

(** C10. On a row whose keys are header names and whose values are text or
    [None], the loop body raises nothing: it returns the records collected so
    far, extended by the records of the row (none when the row is skipped).
    A column that is missing behaves as the same column holding the empty
    text, or [None]. *)
Theorem loop_body_total (cleaned_records : list record) (row : raw_row) :
  well_formed row = true ->
  (exists recs, loop_body cleaned_records row = Ok (cleaned_records ++ recs))
  /\ (forall name,
         In name columns -> lookup row name = None ->
         loop_body cleaned_records (row ++ [(Some name, PyStr "")])
         = loop_body cleaned_records row
         /\ loop_body cleaned_records (row ++ [(Some name, PyNone)])
            = loop_body cleaned_records row).
Proof.
  intros Hwf. split.
  - exists (row_records row). now apply loop_body_records.
  - intros name Hcol Hmiss.
    rewrite <- (columns_stripped name Hcol) in Hmiss.
    rewrite !loop_body_records
      by (try apply well_formed_app; auto).
    split; f_equal; f_equal; apply row_records_ext;
      apply cell_app_absent; auto.
Qed.

Lemma loop_body_total_witness :
  (exists recs, loop_body [] [(Some "Subj", PyStr "ALE")] = Ok recs)
  /\ loop_body [] [(Some "Subj", PyStr "ALE"); (Some "Days", PyStr "")]
     = loop_body [] [(Some "Subj", PyStr "ALE")].
Proof.
  destruct (loop_body_total [] [(Some "Subj", PyStr "ALE")])
    as [Hrun Hmiss]; [reflexivity|].
  split; [exact Hrun|].
  apply (Hmiss "Days"); [|reflexivity].
  unfold columns. simpl. tauto.
Defined.

(** Outside that domain the loop body does raise: a line with more cells
    than the header comes with the [None] key, which has no [strip]. *)
Example surplus_cells_raise :
  loop_body [] (sample_row ++ [(None, PyList ["extra"])]) = Raise AttributeError.
Proof. reflexivity. Qed.

(* ================================================================= *)
(** * Further properties of the cleaning script *)

(** ** Splitting at colons *)






(** ** Stripping a padded text *)

Lemma strip_by_not_empty (p : ascii -> bool) (s : string) :
  is_empty s = true -> strip_by p s = "".
Proof. destruct s; [reflexivity|discriminate]. Qed.

Lemma strip_by_idem (p : ascii -> bool) (s : string) :
  strip_by p (strip_by p s) = strip_by p s.
Proof. apply strip_by_fixed, strip_by_bare. Qed.

Lemma lstrip_by_pad (p : ascii -> bool) (pre s : string) :
  all_chars p pre = true -> lstrip_by p (pre ++ s) = lstrip_by p s.
Proof.
  induction pre as [|c r IH]; simpl; [reflexivity|].
  intros H. apply andb_true_iff in H as [-> Hr]. now apply IH.
Qed.

Lemma rstrip_by_all (p : ascii -> bool) (s : string) :
  all_chars p s = true -> rstrip_by p s = "".
Proof.
  induction s as [|c r IH]; simpl; [reflexivity|].
  intros H. apply andb_true_iff in H as [-> Hr]. now rewrite (IH Hr).
Qed.

Lemma rstrip_by_pad (p : ascii -> bool) (s post : string) :
  all_chars p post = true -> rstrip_by p (s ++ post) = rstrip_by p s.
Proof.
  intros H. induction s as [|c r IH]; simpl.
  - now apply rstrip_by_all.
  - now rewrite IH.
Qed.

Lemma lstrip_by_app_pad (p : ascii -> bool) (s post : string) :
  all_chars p post = true ->
  rstrip_by p (lstrip_by p (s ++ post)) = rstrip_by p (lstrip_by p s).
Proof.
  intros H. induction s as [|c r IH]; cbn [append lstrip_by].
  - rewrite <- lstrip_by_empty in H.
    destruct (lstrip_by p post); [reflexivity|discriminate].
  - destruct (p c); [exact IH|].
    change (String c (r ++ post)) with (String c r ++ post)%string.
    now apply rstrip_by_pad.
Qed.

Lemma strip_by_pad (p : ascii -> bool) (pre s post : string) :
  all_chars p pre = true -> all_chars p post = true ->
  strip_by p (pre ++ s ++ post) = strip_by p s.
Proof.
  intros Hpre Hpost. unfold strip_by.
  now rewrite lstrip_by_pad, lstrip_by_app_pad.
Qed.

(** ** More on [time_to_minutes] *)

Lemma time_to_minutes_of_strip (t : string) :
  time_to_minutes t =
  if is_empty (strip t) then Ok None
  else
    try_except
      (hm <- unpack2_map_int (split colon (strip t)) ;;
       let '(hours, minutes) := hm in
       Ok (Some (hours * 60 + minutes)))
      [ValueError; AttributeError]
      (Ok None).
Proof.
  unfold time_to_minutes. rewrite eqb_empty.
  destruct (is_empty t) eqn:E; [|reflexivity].
  unfold strip. now rewrite (strip_by_not_empty _ _ E).
Qed.



(** X2. Blanks around a time text change nothing: the text padded on both
    sides with blanks encodes as the text itself. *)
Theorem time_to_minutes_ignores_padding (pre t post : string) :
  all_chars isspace pre = true -> all_chars isspace post = true ->
  time_to_minutes (pre ++ t ++ post) = time_to_minutes t.
Proof.
  intros Hpre Hpost.
  rewrite !time_to_minutes_of_strip. unfold strip.
  now rewrite (strip_by_pad isspace pre t post Hpre Hpost).
Qed.

Lemma time_to_minutes_ignores_padding_witness :
  time_to_minutes ("  " ++ "09:05" ++ " ") = time_to_minutes "09:05".
Proof.
  apply (time_to_minutes_ignores_padding "  " "09:05" " "); reflexivity.
Defined.

(** ** Plain digit runs *)






Lemma starts_with_app (p : ascii -> bool) (a b : string) :
  is_empty a = false -> starts_with p (a ++ b) = starts_with p a.
Proof. destruct a; [discriminate|reflexivity]. Qed.

Lemma ends_with_app (p : ascii -> bool) (a b : string) :
  is_empty b = false -> ends_with p (a ++ b) = ends_with p b.
Proof.
  intros Hb. induction a as [|c r IH]; [reflexivity|].
  cbn [append]. cbn [ends_with]. rewrite IH.
  destruct (r ++ b)%string eqn:E; [|reflexivity].
  destruct r; [|discriminate]. simpl in E. subst. discriminate.
Qed.




(** ** [normalize_course_type] *)

Lemma type_map_identity (code t : string) :
  dict_get type_map code = Some t -> t = code.
Proof.
  unfold type_map. cbn [dict_get].
  repeat match goal with
         | |- context [String.eqb ?a code] =>
             destruct (String.eqb_spec a code); [congruence|]
         end.
  discriminate.
Qed.





(** X4. The table of [normalize_course_type] never changes a code: for
    every text, listed in the table or not, the result is the text stripped
    of surrounding blanks and upper-cased. *)
Theorem normalize_course_type_is_upper_strip (lec_lab : string) :
  normalize_course_type lec_lab = upper (strip lec_lab).
Proof.
  unfold normalize_course_type.
  destruct lec_lab as [|c r]; [reflexivity|]. cbn [is_empty].
  destruct (dict_get type_map (upper (strip (String c r)))) as [t|] eqn:E;
    [|reflexivity].
  now apply type_map_identity in E.
Qed.



(** ** [build_course_code] *)

Lemma strip_empty_arg (s : string) :
  (if is_empty s then "" else strip s) = strip s.
Proof. destruct s; reflexivity. Qed.

Lemma bare_not_empty_starts (p : ascii -> bool) (s : string) :
  bare p s = true -> starts_with p s = false /\ ends_with p s = false.
Proof.
  unfold bare. intros H. apply andb_true_iff in H as [H1 H2].
  now apply negb_true_iff in H1, H2.
Qed.

Lemma strip_joined (a b : string) :
  bare isspace a = true -> bare isspace b = true ->
  strip (a ++ " " ++ b) =
  if is_empty b then a
  else if is_empty a then b
  else (a ++ " " ++ b)%string.
Proof.
  intros Ha Hb.
  destruct (bare_not_empty_starts _ _ Ha) as [Has Hae].
  destruct (bare_not_empty_starts _ _ Hb) as [Hbs Hbe].
  destruct b as [|cb rb]; cbn [is_empty].
  - destruct a as [|ca ra]; [reflexivity|].
    unfold strip, strip_by.
    rewrite lstrip_by_fixed by exact Has.
    rewrite (rstrip_by_pad isspace (String ca ra) (" " ++ "")) by reflexivity.
    now apply rstrip_by_fixed.
  - destruct a as [|ca ra]; cbn [is_empty].
    + unfold strip, strip_by. cbn [append].
      change (lstrip_by isspace (String " " (String cb rb)))
        with (lstrip_by isspace (String cb rb)).
      now apply (strip_by_fixed isspace (String cb rb)).
    + unfold strip. apply strip_by_fixed. unfold bare.
      rewrite starts_with_app by reflexivity. rewrite Has.
      rewrite (ends_with_app isspace (String ca ra) (" " ++ String cb rb))
        by reflexivity.
      rewrite (ends_with_app isspace " " (String cb rb)) by reflexivity.
      now rewrite Hbe.
Qed.

(** X6. [build_course_code] joins the stripped subject and the stripped
    number with one blank; when one of the two is empty or blank the result
    is the other one alone, with no stray blank, and when both are it is the
    empty text. *)
Theorem build_course_code_joins (subj course_num : string) :
  build_course_code subj course_num =
  if is_empty (strip course_num) then strip subj
  else if is_empty (strip subj) then strip course_num
  else (strip subj ++ " " ++ strip course_num)%string.
Proof.
  unfold build_course_code. rewrite !strip_empty_arg.
  apply strip_joined; unfold strip; apply strip_by_bare.
Qed.

(** ** More on [parse_days] *)

Lemma dedup_from_fixed (l : list string) :
  forall seen,
    NoDup l -> (forall x, In x l -> ~ In x seen) -> dedup_from seen l = l.
Proof.
  induction l as [|x r IH]; intros seen Hnd Hdis; simpl; [reflexivity|].
  inversion Hnd as [|? ? Hx Hr]; subst.
  assert (E : set_mem x seen = false).
  { apply set_mem_not_In. apply Hdis. now left. }
  rewrite E. f_equal. apply IH; [exact Hr|].
  intros y Hy [<-|Hs]; [contradiction|].
  apply (Hdis y); [now right|exact Hs].
Qed.

Lemma day_letters_code (d rest : string) :
  In d weekday_codes ->
  day_letters (d ++ rest) = d :: day_letters rest.
Proof.
  unfold weekday_codes. simpl.
  intros [<-|[<-|[<-|[<-|[<-|[]]]]]]; reflexivity.
Qed.

Lemma day_letters_concat (l : list string) :
  Forall (fun d => In d weekday_codes) l ->
  day_letters (String.concat "" l) = l.
Proof.
  induction 1 as [|d r Hd Hr IH]; [reflexivity|].
  destruct r as [|d' r'].
  - unfold weekday_codes in Hd. simpl in Hd.
    destruct Hd as [<-|[<-|[<-|[<-|[<-|[]]]]]]; reflexivity.
  - change (String.concat "" (d :: d' :: r'))
      with (d ++ "" ++ String.concat "" (d' :: r'))%string.
    cbn [append]. now rewrite day_letters_code, IH.
Qed.

(** X7. Joining the codes [parse_days] returns and parsing the joined text
    gives the same list back: the output is a canonical form of the day
    pattern. *)
Theorem parse_days_round_trip (s : string) :
  parse_days (String.concat "" (parse_days s)) = parse_days s.
Proof.
  rewrite (parse_days_closed_form (String.concat "" (parse_days s))).
  assert (Hcodes : Forall (fun d => In d weekday_codes) (parse_days s)).
  { rewrite parse_days_closed_form. apply Forall_forall. intros d Hd.
    apply dedup_from_In in Hd as [Hd _]. now apply day_letters_codes in Hd. }
  rewrite (day_letters_concat _ Hcodes).
  apply dedup_from_fixed.
  - rewrite parse_days_closed_form. apply dedup_from_NoDup.
  - intros x _ [].
Qed.

Lemma distinct_weekdays_bound (s : string) : (distinct_weekdays s <= 5)%nat.
Proof.
  unfold distinct_weekdays.
  etransitivity; [apply filter_length_le|]. reflexivity.
Qed.

Lemma list_sum_bound {A : Type} (w : A -> nat) (b : nat) (l : list A) :
  (forall x, (w x <= b)%nat) ->
  (list_sum (map w l) <= b * List.length l)%nat.
Proof.
  intros H. induction l as [|x l IH]; simpl; [lia|].
  specialize (H x). lia.
Qed.

(** X8. A row never yields more than five records: for rows as the reader
    yields them, the run returns at most five records per input row. *)
Theorem at_most_five_records_per_row (rows : list raw_row) :
  Forall (fun row => well_formed row = true) rows ->
  exists out,
    clean_course_data rows = Ok out
    /\ (List.length out <= 5 * List.length rows)%nat.
Proof.
  intros Hwf. exists (flat_map row_records rows). split.
  - unfold clean_course_data. now rewrite for_each_row_records.
  - rewrite flat_map_length. apply list_sum_bound.
    intros row. rewrite row_records_length.
    destruct (excluded row); [lia|apply distinct_weekdays_bound].
Qed.

Lemma at_most_five_records_per_row_witness :
  exists out,
    clean_course_data [with_cell "Days" "MTWRF mtwrf"; sample_row] = Ok out
    /\ (List.length out <= 10)%nat.
Proof.
  destruct (at_most_five_records_per_row
              [with_cell "Days" "MTWRF mtwrf"; sample_row])
    as (out & Hout & Hlen).
  - repeat constructor.
  - exists out. split; [exact Hout|exact Hlen].
Defined.

(** ** Rows do not interact *)

Lemma loop_body_accumulates (cleaned_records : list record) (row : raw_row) :
  loop_body cleaned_records row =
  (recs <- loop_body [] row ;; Ok (cleaned_records ++ recs)).
Proof.
  unfold loop_body.
  repeat match goal with
         | |- context [bind ?c _] =>
             lazymatch c with
             | bind _ _ => fail
             | _ => destruct c as [?|?]; cbn [bind]; [|reflexivity]
             end
         end.
  repeat match goal with
         | |- context [if ?b then _ else _] =>
             destruct b; cbn [bind]; [now rewrite app_nil_r|]
         end.
  rewrite !time_to_minutes_total. cbn [bind].
  destruct (minutes_of _) as [sm|]; [|cbn [bind]; now rewrite app_nil_r].
  destruct (minutes_of _) as [em|]; [|cbn [bind]; now rewrite app_nil_r].
  destruct (is_nil _); cbn [bind]; [now rewrite app_nil_r|].
  now rewrite !fold_append_records.
Qed.

Lemma for_each_row_accumulates (rows : list raw_row) :
  forall cleaned_records,
    for_each_row rows cleaned_records =
    (recs <- for_each_row rows [] ;; Ok (cleaned_records ++ recs)).
Proof.
  induction rows as [|row rest IH]; intros acc; simpl.
  - now rewrite app_nil_r.
  - rewrite (loop_body_accumulates acc row).
    destruct (loop_body [] row) as [recs|e]; cbn [bind]; [|reflexivity].
    rewrite (IH (acc ++ recs)), (IH recs).
    destruct (for_each_row rest []) as [more|e]; cbn [bind]; [|reflexivity].
    now rewrite app_assoc.
Qed.

Lemma for_each_row_app (rows1 rows2 : list raw_row) :
  forall cleaned_records,
    for_each_row (rows1 ++ rows2) cleaned_records =
    (records <- for_each_row rows1 cleaned_records ;;
     for_each_row rows2 records).
Proof.
  induction rows1 as [|row rest IH]; intros acc; simpl; [reflexivity|].
  destruct (loop_body acc row); cbn [bind]; [apply IH|reflexivity].
Qed.

(** X9. No state is carried from one row to the next except the list of
    records: the run over two batches of rows, one after the other, is the
    run over the first followed by the run over the second, with the records
    concatenated; an exception raised in either batch is the outcome of the
    whole and no record is returned. *)
Theorem clean_course_data_app (rows1 rows2 : list raw_row) :
  clean_course_data (rows1 ++ rows2) =
  (out1 <- clean_course_data rows1 ;;
   out2 <- clean_course_data rows2 ;;
   Ok (out1 ++ out2)).
Proof.
  unfold clean_course_data. rewrite for_each_row_app.
  destruct (for_each_row rows1 []) as [out1|e]; cbn [bind]; [|reflexivity].
  apply for_each_row_accumulates.
Qed.

(** ** Skipped and kept rows *)

Lemma excluded_row_skipped (cleaned_records : list record) (row : raw_row) :
  well_formed row = true ->
  excluded row = true ->
  loop_body cleaned_records row = Ok cleaned_records.
Proof.
  intros Hwf H. rewrite (loop_body_records _ _ Hwf).
  apply excluded_iff in H. now rewrite H, app_nil_r.
Qed.

(** ** Malformed lines and headers *)

Lemma normalize_keys_surplus (row : raw_row) :
  has_surplus_cells row = true ->
  forall d, normalize_keys row d = Raise AttributeError.
Proof.
  induction row as [|[k v] rest IH]; simpl; [discriminate|].
  destruct k as [k|]; [|reflexivity].
  simpl. intros H d. now apply IH.
Qed.

(** X10. A line with more cells than the header aborts the whole run: if
    the rows before it are well formed, the run raises [AttributeError] at
    that row, whatever follows, and returns no record at all. *)
Theorem surplus_cells_abort_the_run (before after : list raw_row) (row : raw_row) :
  Forall (fun r => well_formed r = true) before ->
  has_surplus_cells row = true ->
  clean_course_data (before ++ row :: after) = Raise AttributeError.
Proof.
  intros Hwf Hrow. unfold clean_course_data.
  rewrite for_each_row_app, (for_each_row_records before Hwf). cbn [bind].
  cbn [for_each_row]. unfold loop_body.
  now rewrite (normalize_keys_surplus row Hrow).
Qed.

Lemma surplus_cells_abort_the_run_witness :
  clean_course_data
    ([sample_row] ++ (sample_row ++ [(None, PyList ["x"])]) :: [sample_row])
  = Raise AttributeError.
Proof.
  apply (surplus_cells_abort_the_run [sample_row] [sample_row]
           (sample_row ++ [(None, PyList ["x"])])).
  - repeat constructor.
  - reflexivity.
Defined.

Lemma normalize_keys_strip_headers (row : raw_row) :
  forall d, normalize_keys (strip_headers row) d = normalize_keys row d.
Proof.
  induction row as [|[k v] rest IH]; intros d; simpl; [reflexivity|].
  destruct k as [k|]; simpl; [|reflexivity].
  unfold strip at 1. rewrite strip_by_idem. apply IH.
Qed.

(** X11. Blanks around header names do not matter: a row gives the same
    result as the row with every header name stripped. *)
Theorem header_blanks_ignored (cleaned_records : list record) (row : raw_row) :
  loop_body cleaned_records (strip_headers row) = loop_body cleaned_records row.
Proof.
  unfold loop_body. now rewrite normalize_keys_strip_headers.
Qed.

Lemma cell_missing (row : raw_row) (name : string) :
  lookup row name = None -> field row name = "".
Proof. unfold field, cell. now intros ->. Qed.

(** X12. A row that lacks the Start Time, End Time, Bldg or Days column is
    skipped: the records collected so far are returned unchanged and nothing
    is raised. *)
Theorem missing_column_skips_row
    (cleaned_records : list record) (row : raw_row) (name : string) :
  well_formed row = true ->
  In name ["Start Time"; "End Time"; "Bldg"; "Days"] ->
  lookup row name = None ->
  loop_body cleaned_records row = Ok cleaned_records.
Proof.
  intros Hwf Hname Hmiss.
  apply (excluded_row_skipped cleaned_records row Hwf).
  apply cell_missing in Hmiss.
  unfold excluded, excluded_as_listed.
  simpl in Hname.
  destruct Hname as [<-|[<-|[<-|[<-|[]]]]]; rewrite Hmiss; cbn [is_empty all_chars];
    rewrite ?orb_true_r; reflexivity.
Qed.

Lemma missing_column_skips_row_witness :
  loop_body [] [(Some "Subj", PyStr "ALE"); (Some "Start Time", PyStr "09:00");
                (Some "End Time", PyStr "09:50"); (Some "Days", PyStr "MWF")]
  = Ok [].
Proof.
  apply (missing_column_skips_row [] _ "Bldg"); [reflexivity| |reflexivity].
  simpl. tauto.
Defined.

(** ** The records of one row, continued *)

Lemma NoDup_map_injective {A B : Type} (f : A -> B) (l : list A) :
  (forall x y, f x = f y -> x = y) -> NoDup l -> NoDup (map f l).
Proof.
  intros Hinj. induction 1 as [|x l Hx Hl IH]; simpl; constructor; [|exact IH].
  intros H. apply in_map_iff in H as (y & Hy & Hin).
  apply Hinj in Hy. now subst.
Qed.

(** X13. The records of one row meet on pairwise different days, each of
    them one of M, T, W, R, F: within a row the day identifies the record. *)
Theorem row_days_distinct (cleaned_records : list record) (row : raw_row) :
  well_formed row = true ->
  exists recs,
    loop_body cleaned_records row = Ok (cleaned_records ++ recs)
    /\ NoDup (map (fun r => dict_get r "day") recs)
    /\ Forall (fun r => exists d, In d weekday_codes
                                  /\ dict_get r "day" = Some (JStr d)) recs.
Proof.
  intros Hwf. exists (row_records row).
  split; [now apply loop_body_records|].
  assert (Hdays : forall s, NoDup (parse_days s)
                            /\ Forall (fun d => In d weekday_codes) (parse_days s)).
  { intros s. rewrite parse_days_closed_form. split.
    - apply dedup_from_NoDup.
    - apply Forall_forall. intros d Hd.
      apply dedup_from_In in Hd as [Hd _]. now apply day_letters_codes in Hd. }
  destruct (excluded row) eqn:E.
  - apply excluded_iff in E. rewrite E. split; constructor.
  - destruct (row_records_shape row E) as (sm & em & _ & _ & ->).
    destruct (Hdays (field row "Days")) as [Hnd Hcodes]. split.
    + rewrite map_map. cbn [record_of make_record dict_get String.eqb Ascii.eqb Bool.eqb].
      apply NoDup_map_injective; [|exact Hnd]. intros x y H. now inversion H.
    + apply Forall_forall. intros r Hr.
      apply in_map_iff in Hr as (d & <- & Hd).
      exists d. split; [|reflexivity].
      rewrite Forall_forall in Hcodes. now apply Hcodes.
Qed.

Lemma row_days_distinct_witness :
  exists recs,
    loop_body [] (with_cell "Days" "M m W M") = Ok recs
    /\ NoDup (map (fun r => dict_get r "day") recs)
    /\ List.length recs = 2%nat.
Proof.
  destruct (row_days_distinct [] (with_cell "Days" "M m W M"))
    as (recs & Hrun & Hnd & _); [reflexivity|].
  exists recs. split; [exact Hrun|]. split; [exact Hnd|].
  vm_compute in Hrun. inversion Hrun. reflexivity.
Defined.

Lemma Forall2_map_same {A B : Type} (R : B -> B -> Prop) (f g : A -> B)
    (l : list A) :
  (forall x, R (f x) (g x)) -> Forall2 R (map f l) (map g l).
Proof. intros H. induction l; simpl; constructor; auto. Qed.

Lemma field_agree (row row' : raw_row) (name : string) :
  cell row name = cell row' name -> field row name = field row' name.
Proof. unfold field. now intros ->. Qed.

(** X14. The course type plays no part in the filter, whatever the comments
    of the type table announce for ONL and TD: two well-formed rows that
    differ in the Lec Lab cell only give the same number of records, and
    their records agree on every key but [type]. *)
Theorem type_never_filters (cleaned_records : list record) (row row' : raw_row) :
  well_formed row = true -> well_formed row' = true ->
  (forall name, name <> "Lec Lab" -> cell row name = cell row' name) ->
  exists recs recs',
    loop_body cleaned_records row = Ok (cleaned_records ++ recs)
    /\ loop_body cleaned_records row' = Ok (cleaned_records ++ recs')
    /\ Forall2 (fun r r' => forall k, k <> "type" ->
                                      dict_get r k = dict_get r' k)
               recs recs'.
Proof.
  intros Hwf Hwf' Hsame.
  exists (row_records row), (row_records row').
  split; [now apply loop_body_records|].
  split; [now apply loop_body_records|].
  assert (Hf : forall name, name <> "Lec Lab" ->
                            field row name = field row' name).
  { intros name Hn. apply field_agree. now apply Hsame. }
  unfold row_records, textual_skip.
  rewrite <- (Hf "Start Time"), <- (Hf "End Time"), <- (Hf "Bldg"),
    <- (Hf "Room"), <- (Hf "Days") by discriminate.
  destruct (_ || _ || _); [constructor|].
  destruct (minutes_of (field row "Start Time")) as [sm|]; [|constructor].
  destruct (minutes_of (field row "End Time")) as [em|]; [|constructor].
  apply Forall2_map_same. intros day k Hk.
  unfold record_of, make_record.
  rewrite <- (Hf "Subj"), <- (Hf "#"), <- (Hf "Title"), <- (Hf "Sec"),
    <- (Hf "Bldg"), <- (Hf "Room"), <- (Hf "Max Enrollment"),
    <- (Hf "Current Enrollment") by discriminate.
  cbn [dict_get].
  repeat match goal with
         | |- context [String.eqb ?a k] =>
             destruct (String.eqb_spec a k); [try reflexivity; congruence|]
         end.
  reflexivity.
Qed.

Lemma type_never_filters_witness :
  exists recs recs',
    loop_body [] sample_row = Ok recs
    /\ loop_body [] (with_cell "Lec Lab" "ONL") = Ok recs'
    /\ List.length recs' = List.length recs
    /\ recs' <> [].
Proof.
  destruct (type_never_filters [] sample_row (with_cell "Lec Lab" "ONL"))
    as (recs & recs' & Hrun & Hrun' & Hagree); try reflexivity.
  - intros name Hname. unfold with_cell, cell. rewrite lookup_app.
    destruct (String.eqb_spec (strip "Lec Lab") name) as [E|E];
      [|reflexivity].
    exfalso. apply Hname. now rewrite <- E.
  - exists recs, recs'. split; [exact Hrun|]. split; [exact Hrun'|]. split.
    + symmetry. eapply Forall2_length. exact Hagree.
    + vm_compute in Hrun'. inversion Hrun'. discriminate.
Defined.




(* ================================================================= *)
(** * The scripts that read the output *)

(** ** [minutes_to_time] *)

Lemma every_minute_composes_true : Report.every_minute_composes = true.
Proof. vm_compute. reflexivity. Qed.

(** X16. Encoding a valid [HH:MM] text with [time_to_minutes] and showing
    the result with [minutes_to_time] gives the twelve-hour reading of the
    same time: hour 12 for hours 00 and 12, the hour modulo 12 otherwise, the
    same two-digit minute, AM before noon and PM from noon on. *)
Theorem encoded_time_shown_on_twelve_hour_clock (h m : Z) :
  0 <= h <= 23 -> 0 <= m <= 59 ->
  exists n,
    time_to_minutes (hh_mm h m) = Ok (Some n)
    /\ Report.minutes_to_time (Json.of_jvalue (JInt n))
       = Ok (Report.twelve_hour h m).
Proof.
  intros Hh Hm. exists (h * 60 + m).
  split; [now apply time_to_minutes_hh_mm|].
  pose proof every_minute_composes_true as H.
  unfold Report.every_minute_composes in H.
  rewrite forallb_forall in H.
  specialize (H h (upto_In 24 h ltac:(lia))).
  rewrite forallb_forall in H.
  specialize (H m (upto_In 60 m ltac:(lia))).
  unfold Report.composes in H. cbn [Json.of_jvalue].
  destruct (Report.minutes_to_time (Json.Int (h * 60 + m))) as [s|e];
    [|discriminate].
  apply String.eqb_eq in H. now subst.
Qed.

Lemma encoded_time_shown_on_twelve_hour_clock_witness :
  exists n,
    time_to_minutes "14:05" = Ok (Some n)
    /\ Report.minutes_to_time (Json.of_jvalue (JInt n)) = Ok "2:05 PM".
Proof.
  apply (encoded_time_shown_on_twelve_hour_clock 14 5); lia.
Defined.

Lemma distinct_strings_injective {A : Type} (f : A -> result string)
    (l : list A) :
  Report.distinct_strings (map f l) = true ->
  forall a b, In a l -> In b l -> f a = f b -> a = b.
Proof.
  induction l as [|x r IH]; simpl; [intros _ a b []|].
  intros H. apply andb_true_iff in H as [Hx Hr].
  apply negb_true_iff in Hx.
  assert (Hclash : forall y, In y r -> f x = f y -> False).
  { intros y Hy E.
    assert (Hex : existsb
                    (fun z => match f x, z with
                              | Ok s, Ok t => String.eqb s t
                              | _, _ => true
                              end) (map f r) = true).
    { apply existsb_exists. exists (f y). split; [now apply in_map|].
      rewrite <- E. destruct (f x); [apply String.eqb_refl|reflexivity]. }
    congruence. }
  intros a b [<-|Ha] [<-|Hb] E.
  - reflexivity.
  - exfalso. eapply Hclash; eauto.
  - exfalso. eapply Hclash; eauto.
  - now apply IH.
Qed.

Lemma day_of_displays_distinct :
  Report.distinct_strings Report.day_of_displays = true.
Proof. vm_compute. reflexivity. Qed.

(** X17. Within one day [minutes_to_time] loses nothing: two numbers of
    minutes between 0 and 1439 that are shown alike are equal.  (The report
    compares the shown texts to decide whether all meetings of a section are
    at the same time.) *)
Theorem minutes_to_time_injective_in_day (a b : Z) :
  0 <= a <= 1439 -> 0 <= b <= 1439 ->
  Report.minutes_to_time (Json.Int a) = Report.minutes_to_time (Json.Int b) ->
  a = b.
Proof.
  intros Ha Hb.
  apply (distinct_strings_injective
           (fun n => Report.minutes_to_time (Json.Int n)) (upto 1440)).
  - exact day_of_displays_distinct.
  - apply upto_In. lia.
  - apply upto_In. lia.
Qed.

Lemma minutes_to_time_injective_in_day_witness :
  Report.minutes_to_time (Json.Int 540) = Ok "9:00 AM" /\ 540 = 9 * 60.
Proof.
  split; [reflexivity|].
  apply (minutes_to_time_injective_in_day 540 (9 * 60)); [lia|lia|reflexivity].
Defined.

(** Beyond one day the display does repeat. *)
Example minutes_to_time_repeats_after_a_day :
  Report.minutes_to_time (Json.Int 1440) = Report.minutes_to_time (Json.Int 720).
Proof. reflexivity. Qed.

(** ** Records as the readers load them *)

Lemma of_record_get (r : record) (k : string) :
  dict_get (Json.of_record r) k = option_map Json.of_jvalue (dict_get r k).
Proof.
  unfold Json.of_record. induction r as [|[k' v] r IH]; simpl; [reflexivity|].
  destruct (String.eqb k' k); [reflexivity|exact IH].
Qed.

Lemma clean_course_data_records (rows : list raw_row) (out : list record) :
  Forall (fun row => well_formed row = true) rows ->
  clean_course_data rows = Ok out ->
  Forall (fun r => exists row sm em day, r = record_of row sm em day) out.
Proof.
  intros Hwf Hrun. unfold clean_course_data in Hrun.
  rewrite (for_each_row_records rows Hwf) in Hrun.
  inversion Hrun; subst. apply Forall_forall. intros r Hr.
  apply in_flat_map in Hr as (row & _ & Hr).
  apply row_records_inv in Hr as (sm & em & day & -> & _). eauto.
Qed.

(** ** [analyze_over_capacity], first part *)

Lemma capacity_loop_unflagged (course_data : list (dict Json.json)) :
  Forall (fun c => Json.equal (Json.get c "capacity_from_csv") (Json.Bool true)
                   = false) course_data ->
  forall st, Report.capacity_loop course_data st = Ok st.
Proof.
  induction 1 as [|c rest Hc Hrest IH]; intros [over total]; simpl;
    [reflexivity|].
  rewrite Hc. cbn [bind]. apply IH.
Qed.

(** X18. When no loaded record has [capacity_from_csv] equal to [True], the
    empty data set included, the first part of [analyze_over_capacity] ends
    in a [ZeroDivisionError] at its percentage line: the count it divides by
    is zero and the division is not guarded. *)
Theorem capacity_summary_divides_by_zero (course_data : list (dict Json.json)) :
  Forall (fun c => Json.equal (Json.get c "capacity_from_csv") (Json.Bool true)
                   = false) course_data ->
  Report.capacity_summary course_data = Report.Failed Report.ZeroDivisionError.
Proof.
  intros H. unfold Report.capacity_summary.
  now rewrite (capacity_loop_unflagged course_data H).
Qed.

Lemma capacity_summary_divides_by_zero_witness :
  Report.capacity_summary
    [[("course", Json.Str "ALE 2170"); ("capacity_from_csv", Json.Bool false)];
     [("course", Json.Str "ALE 2171")]]
  = Report.Failed Report.ZeroDivisionError.
Proof.
  apply capacity_summary_divides_by_zero. repeat constructor.
Defined.

(** X19. The records [clean_course_data] writes carry neither
    [capacity_from_csv] nor [capacity]; loaded back and handed to the first
    part of [analyze_over_capacity], they always end it in a
    [ZeroDivisionError]. *)
Theorem cleaned_output_divides_by_zero (rows : list raw_row) :
  Forall (fun row => well_formed row = true) rows ->
  exists out,
    clean_course_data rows = Ok out
    /\ Forall (fun r => dict_get r "capacity_from_csv" = None
                        /\ dict_get r "capacity" = None) out
    /\ Report.capacity_summary (map Json.of_record out)
       = Report.Failed Report.ZeroDivisionError.
Proof.
  intros Hwf. exists (flat_map row_records rows).
  assert (Hrun : clean_course_data rows = Ok (flat_map row_records rows)).
  { unfold clean_course_data. now rewrite for_each_row_records. }
  pose proof (clean_course_data_records rows _ Hwf Hrun) as Hshape.
  split; [exact Hrun|]. split.
  - eapply Forall_impl; [|exact Hshape].
    intros r (row & sm & em & day & ->). split; reflexivity.
  - apply capacity_summary_divides_by_zero.
    apply Forall_forall. intros c Hc.
    apply in_map_iff in Hc as (r & <- & Hr).
    rewrite Forall_forall in Hshape.
    destruct (Hshape r Hr) as (row & sm & em & day & ->).
    reflexivity.
Qed.

Lemma cleaned_output_divides_by_zero_witness :
  exists out,
    clean_course_data [sample_row] = Ok out
    /\ out <> []
    /\ Report.capacity_summary (map Json.of_record out)
       = Report.Failed Report.ZeroDivisionError.
Proof.
  destruct (cleaned_output_divides_by_zero [sample_row])
    as (out & Hrun & _ & Hfail); [repeat constructor|].
  exists out. split; [exact Hrun|]. split; [|exact Hfail].
  vm_compute in Hrun. inversion Hrun. discriminate.
Defined.

(** ** [analytics.py] *)

Lemma over_capacity_positive (courses : list (dict Json.json)) :
  Forall (fun c => dict_get c "capacity" = None
                   /\ exists n, dict_get c "current_enrollment"
                                = Some (Json.Int n)) courses ->
  Analytics.over_capacity courses =
  Ok (filter (fun c => match dict_get c "current_enrollment" with
                       | Some (Json.Int n) => n >? 0
                       | _ => false
                       end) courses).
Proof.
  induction 1 as [|c rest (Hcap & n & Hcur) Hrest IH]; simpl; [reflexivity|].
  unfold Json.get_default. rewrite Hcap, Hcur. cbn [Json.greater Json.as_int bind].
  rewrite IH. cbn [bind]. destruct (n >? 0); reflexivity.
Qed.

Lemma over_capacity_null (courses : list (dict Json.json)) :
  Forall (fun c => dict_get c "capacity" = None
                   /\ (dict_get c "current_enrollment" = Some Json.Null
                       \/ exists n, dict_get c "current_enrollment"
                                    = Some (Json.Int n))) courses ->
  Exists (fun c => dict_get c "current_enrollment" = Some Json.Null) courses ->
  Analytics.over_capacity courses = Raise TypeError.
Proof.
  induction 1 as [|c rest (Hcap & Hcur) Hrest IH]; intros Hex;
    [inversion Hex|].
  simpl. unfold Json.get_default. rewrite Hcap.
  destruct Hcur as [Hcur|(n & Hcur)]; rewrite Hcur; [reflexivity|].
  cbn [Json.greater Json.as_int bind].
  inversion Hex as [? ? Hnull|? ? Hlater]; subst; [congruence|].
  now rewrite (IH Hlater).
Qed.

(** X20. Run on the records [clean_course_data] writes, the selection of
    [analytics.py] compares the current enrollment with 0, the records having
    no [capacity]: if one record has a null current enrollment it raises
    [TypeError]; otherwise it returns, in order, exactly the records whose
    current enrollment is positive. *)
Theorem analytics_on_cleaned_output (rows : list raw_row) :
  Forall (fun row => well_formed row = true) rows ->
  exists out,
    clean_course_data rows = Ok out
    /\ (Exists (fun r => dict_get r "current_enrollment" = Some JNull) out ->
        Analytics.over_capacity (map Json.of_record out) = Raise TypeError)
    /\ (Forall (fun r => dict_get r "current_enrollment" <> Some JNull) out ->
        Analytics.over_capacity (map Json.of_record out) =
        Ok (map Json.of_record
              (filter (fun r => match dict_get r "current_enrollment" with
                                | Some (JInt n) => n >? 0
                                | _ => false
                                end) out))).
Proof.
  intros Hwf. exists (flat_map row_records rows).
  assert (Hrun : clean_course_data rows = Ok (flat_map row_records rows)).
  { unfold clean_course_data. now rewrite for_each_row_records. }
  pose proof (clean_course_data_records rows _ Hwf Hrun) as Hshape.
  set (out := flat_map row_records rows) in *. clearbody out.
  split; [exact Hrun|]. split.
  - intros Hex. apply over_capacity_null.
    + apply Forall_forall. intros c Hc.
      apply in_map_iff in Hc as (r & <- & Hr).
      rewrite Forall_forall in Hshape.
      destruct (Hshape r Hr) as (row & sm & em & day & ->).
      split; [reflexivity|]. rewrite of_record_get.
      cbn [record_of make_record dict_get String.eqb Ascii.eqb Bool.eqb option_map].
      destruct (enrollment (field row "Current Enrollment")) as [n|];
        [right; now exists n|now left].
    + apply Exists_exists in Hex as (r & Hr & Hnull).
      apply Exists_exists. exists (Json.of_record r).
      split; [now apply in_map|]. rewrite of_record_get, Hnull. reflexivity.
  - intros Hall. rewrite over_capacity_positive.
    + f_equal. clear Hrun Hshape Hall.
      induction out as [|r out IH]; simpl; [reflexivity|].
      rewrite of_record_get.
      destruct (dict_get r "current_enrollment") as [[|n|s]|]; simpl;
        try exact IH.
      destruct (n >? 0); simpl; now rewrite IH.
    + apply Forall_forall. intros c Hc.
      apply in_map_iff in Hc as (r & <- & Hr).
      rewrite Forall_forall in Hshape, Hall.
      specialize (Hall r Hr).
      destruct (Hshape r Hr) as (row & sm & em & day & ->).
      split; [reflexivity|]. rewrite of_record_get.
      revert Hall.
      cbn [record_of make_record dict_get String.eqb Ascii.eqb Bool.eqb option_map].
      destruct (enrollment (field row "Current Enrollment")) as [n|];
        [intros _; now exists n|intros Hn; now contradiction Hn].
Qed.

Lemma analytics_on_cleaned_output_witness :
  Analytics.over_capacity
    (map Json.of_record
         (flat_map row_records [with_cell "Current Enrollment" "n/a"]))
  = Raise TypeError.
Proof.
  destruct (analytics_on_cleaned_output [with_cell "Current Enrollment" "n/a"])
    as (out & Hrun & Hnull & _); [repeat constructor|].
  vm_compute in Hrun. inversion Hrun as [Hout]. clear Hrun.
  rewrite <- Hout in Hnull. apply Hnull.
  apply Exists_cons_hd. reflexivity.
Defined.

(** ** Counting and grouping in [analyze_over_capacity] *)

Lemma capacity_step_counts (st st' : list Report.over_class * nat)
    (course : dict Json.json) :
  Report.capacity_step st course = Ok st' ->
  snd st' = ((if flagged course then 1 else 0) + snd st)%nat
  /\ (List.length (fst st') <=
      (if flagged course then 1 else 0) + List.length (fst st))%nat.
Proof.
  destruct st as [over total]. unfold Report.capacity_step, flagged.
  destruct (Json.equal _ _).
  - destruct (Report.strip_value _); cbn [bind]; [|discriminate].
    destruct (Report.strip_value _); cbn [bind]; [|discriminate].
    destruct (_ || _).
    + intros H. inversion H; subst. simpl. lia.
    + destruct (Json.greater _ _) as [[|]|]; cbn [bind]; [| |discriminate];
        intros H; inversion H; subst; simpl; rewrite ?length_app; simpl; lia.
  - intros H. inversion H; subst. simpl. lia.
Qed.

Lemma capacity_loop_counts (course_data : list (dict Json.json)) :
  forall st st',
    Report.capacity_loop course_data st = Ok st' ->
    snd st' = (List.length (filter flagged course_data) + snd st)%nat
    /\ (List.length (fst st') <=
        List.length (filter flagged course_data) + List.length (fst st))%nat.
Proof.
  induction course_data as [|c rest IH]; intros st st'; simpl.
  - intros H. inversion H; subst. lia.
  - destruct (Report.capacity_step st c) as [st1|e] eqn:E; cbn [bind];
      [|discriminate].
    intros H. apply IH in H as [Htot Hlen].
    apply capacity_step_counts in E as [Htot1 Hlen1].
    destruct (flagged c); simpl; lia.
Qed.

(** X21. When the first part of [analyze_over_capacity] completes, the
    count it divides by is the number of records with [capacity_from_csv]
    equal to [True], whether or not they have enrollment and capacity data,
    it is not zero, and the number of meetings over capacity does not exceed
    it nor the number of records loaded. *)
Theorem capacity_counts (course_data : list (dict Json.json))
    (over : list Report.over_class) (total : nat)
    (consolidated : list (Report.key * Report.section)) :
  Report.capacity_summary course_data = Report.Done (over, total, consolidated) ->
  total = List.length (filter flagged course_data)
  /\ (0 < total)%nat
  /\ (List.length over <= total)%nat
  /\ (total <= List.length course_data)%nat.
Proof.
  unfold Report.capacity_summary.
  destruct (Report.capacity_loop course_data ([], 0%nat)) as [[o t]|e] eqn:E;
    [|discriminate].
  destruct (Nat.eqb_spec t 0); [discriminate|].
  intros H. inversion H; subst.
  apply capacity_loop_counts in E as [Htot Hlen]. simpl in *.
  pose proof (filter_length_le flagged course_data). lia.
Qed.

Lemma capacity_counts_witness :
  exists over consolidated,
    Report.capacity_summary flagged_data = Report.Done (over, 2%nat, consolidated)
    /\ (List.length over <= 2)%nat
    /\ 2%nat = List.length (filter flagged flagged_data).
Proof.
  destruct (Report.capacity_summary flagged_data) as [[[over total] cons]|f] eqn:E;
    [|vm_compute in E; discriminate E].
  assert (Htotal : total = 2%nat)
    by (vm_compute in E; now inversion E).
  subst total. exists over, cons. split; [reflexivity|].
  destruct (capacity_counts flagged_data over 2 cons E) as (H1 & _ & H2 & _).
  split; [exact H2|exact H1].
Defined.

Lemma consolidate_step_meetings (consolidated : list (Report.key * Report.section))
    (cls : Report.over_class) :
  total_meetings (Report.consolidate_step consolidated cls)
  = S (total_meetings consolidated)
  /\ (List.length (Report.consolidate_step consolidated cls)
      <= S (List.length consolidated))%nat
  /\ (Forall (fun e => Report.sec_meetings (snd e) <> []) consolidated ->
      Forall (fun e => Report.sec_meetings (snd e) <> [])
             (Report.consolidate_step consolidated cls)).
Proof.
  unfold total_meetings.
  induction consolidated as [|[k s] rest (IHsum & IHlen & IHne)]; simpl.
  - split; [reflexivity|]. split; [lia|].
    intros _. repeat constructor. discriminate.
  - destruct (Report.key_equal k (Report.key_of cls)); simpl.
    + rewrite length_app. simpl. split; [lia|]. split; [lia|].
      intros H. inversion H; subst. constructor; [|assumption].
      simpl. now destruct (Report.sec_meetings s).
    + rewrite IHsum. split; [lia|]. split; [lia|].
      intros H. inversion H; subst. constructor; auto.
Qed.

Lemma consolidate_fold_meetings (over : list Report.over_class) :
  forall consolidated,
    Forall (fun e => Report.sec_meetings (snd e) <> []) consolidated ->
    total_meetings (fold_left Report.consolidate_step over consolidated)
    = (List.length over + total_meetings consolidated)%nat
    /\ (List.length (fold_left Report.consolidate_step over consolidated)
        <= List.length over + List.length consolidated)%nat
    /\ Forall (fun e => Report.sec_meetings (snd e) <> [])
              (fold_left Report.consolidate_step over consolidated).
Proof.
  induction over as [|cls rest IH]; intros c Hne; simpl.
  - split; [reflexivity|]. split; [lia|assumption].
  - destruct (consolidate_step_meetings c cls) as (Hsum & Hlen & Hkeep).
    destruct (IH _ (Hkeep Hne)) as (Hsum' & Hlen' & Hne').
    split; [lia|]. split; [lia|assumption].
Qed.

(** X22. Grouping the meetings over capacity by course and section loses
    and repeats nothing: the sections hold together exactly as many meetings
    as there are records over capacity, no section is without a meeting, and
    there are at most as many sections as such records. *)
Theorem consolidate_keeps_every_meeting (over : list Report.over_class) :
  total_meetings (Report.consolidate over) = List.length over
  /\ (List.length (Report.consolidate over) <= List.length over)%nat
  /\ Forall (fun e => Report.sec_meetings (snd e) <> []) (Report.consolidate over).
Proof.
  unfold Report.consolidate.
  destruct (consolidate_fold_meetings over [] (Forall_nil _))
    as (Hsum & Hlen & Hne).
  unfold total_meetings in *. simpl in *.
  split; [lia|]. split; [lia|assumption].
Qed.

(** ** Keys of the grouping *)

Lemma equal_canonical (a b : Json.json) :
  Json.equal a b = true <-> canonical a = canonical b.
Proof.
  destruct a as [|b1|x|s]; destruct b as [|b2|y|t]; simpl;
    try (split; [discriminate|intros H; discriminate H]);
    try (split; reflexivity);
    try (rewrite Z.eqb_eq; split;
         [intros H; now rewrite H|intros H; now inversion H]).
  rewrite String.eqb_eq. split; [intros H; now rewrite H|intros H; now inversion H].
Qed.

Lemma key_equal_canonical (k k' : Report.key) :
  Report.key_equal k k' = true <-> canonical_key k = canonical_key k'.
Proof.
  unfold Report.key_equal, canonical_key.
  rewrite andb_true_iff, !equal_canonical. split.
  - intros [-> ->]. reflexivity.
  - intros H. inversion H. auto.
Qed.

Lemma key_equal_refl (k : Report.key) : Report.key_equal k k = true.
Proof. now apply key_equal_canonical. Qed.

Lemma key_equal_false (k k' : Report.key) :
  Report.key_equal k k' = false <-> canonical_key k <> canonical_key k'.
Proof.
  rewrite <- key_equal_canonical.
  destruct (Report.key_equal k k'); split; congruence.
Qed.

Lemma consolidate_step_cases (consolidated : list (Report.key * Report.section))
    (cls : Report.over_class) :
  NoDup (map (fun e => canonical_key (fst e)) consolidated) ->
  Report.consolidate_step consolidated cls =
  if existsb (fun e => Report.key_equal (fst e) (Report.key_of cls)) consolidated
  then map (add_if_same_key cls) consolidated
  else consolidated ++
       [(Report.key_of cls,
         Report.append_meeting (Report.new_section cls) (Report.meeting_of cls))].
Proof.
  induction consolidated as [|[k s] rest IH]; simpl; [reflexivity|].
  intros Hnd. inversion Hnd as [|? ? Hk Hrest]; subst.
  unfold add_if_same_key at 1. simpl.
  destruct (Report.key_equal k (Report.key_of cls)) eqn:E; simpl.
  - f_equal. symmetry. rewrite <- (map_id rest) at 2.
    apply map_ext_in. intros [k' s'] Hin. unfold add_if_same_key. simpl.
    assert (Hne : Report.key_equal k' (Report.key_of cls) = false).
    { apply key_equal_false. intros Heq. apply Hk.
      apply key_equal_canonical in E. rewrite E, <- Heq.
      apply (in_map (fun e => canonical_key (fst e)) rest (k', s') Hin). }
    now rewrite Hne.
  - rewrite (IH Hrest).
    destruct (existsb _ rest); reflexivity.
Qed.

Lemma meetings_with_key_snoc (k : Report.key) (seen : list Report.over_class)
    (cls : Report.over_class) :
  meetings_with_key k (seen ++ [cls]) =
  meetings_with_key k seen ++
  (if Report.key_equal k (Report.key_of cls) then [Report.meeting_of cls] else []).
Proof.
  unfold meetings_with_key. rewrite filter_app, map_app. simpl.
  destruct (Report.key_equal k (Report.key_of cls)); reflexivity.
Qed.

Lemma meetings_with_key_none (k : Report.key) (seen : list Report.over_class) :
  Forall (fun c => Report.key_equal k (Report.key_of c) = false) seen ->
  meetings_with_key k seen = [].
Proof.
  unfold meetings_with_key. induction 1 as [|c r Hc Hr IH]; simpl;
    [reflexivity|].
  now rewrite Hc.
Qed.

Lemma grouped_step (seen : list Report.over_class)
    (consolidated : list (Report.key * Report.section))
    (cls : Report.over_class) :
  grouped seen consolidated ->
  grouped (seen ++ [cls]) (Report.consolidate_step consolidated cls).
Proof.
  intros (Hnd & Hent & Hcov).
  rewrite (consolidate_step_cases consolidated cls Hnd).
  destruct (existsb _ consolidated) eqn:Ex.
  - (* the key is known *)
    split; [|split].
    + rewrite map_map.
      replace (map (fun x => canonical_key (fst (add_if_same_key cls x))) consolidated)
        with (map (fun e => canonical_key (fst e)) consolidated); [exact Hnd|].
      apply map_ext. intros [k s]. unfold add_if_same_key. simpl.
      now destruct (Report.key_equal k (Report.key_of cls)).
    + intros k s Hin. apply in_map_iff in Hin as ([k0 s0] & Heq & Hin0).
      destruct (Hent k0 s0 Hin0) as (Hm & before & c0 & after & -> & Hk & Hshow & Hbefore).
      unfold add_if_same_key in Heq. simpl in Heq.
      rewrite meetings_with_key_snoc.
      destruct (Report.key_equal k0 (Report.key_of cls)) eqn:E;
        inversion Heq; subst k s; rewrite E.
      * split; [simpl; now rewrite Hm|].
        exists before, c0, (after ++ [cls]).
        rewrite <- app_assoc. repeat split; try assumption; apply Hshow.
      * split; [now rewrite app_nil_r|].
        exists before, c0, (after ++ [cls]).
        rewrite <- app_assoc. repeat split; try assumption; apply Hshow.
    + intros c Hc. apply in_app_or in Hc as [Hc|[<-|[]]].
      * destruct (Hcov c Hc) as ([k s] & Hin & Hk).
        exists (add_if_same_key cls (k, s)). split; [now apply in_map|].
        unfold add_if_same_key. simpl in *.
        now destruct (Report.key_equal k (Report.key_of cls)).
      * apply existsb_exists in Ex as ([k s] & Hin & Hk).
        exists (add_if_same_key cls (k, s)). split; [now apply in_map|].
        unfold add_if_same_key. simpl in *. now rewrite Hk.
  - (* the key is new *)
    assert (Hnew : forall e, In e consolidated ->
                             Report.key_equal (fst e) (Report.key_of cls) = false).
    { intros e He. destruct (Report.key_equal (fst e) (Report.key_of cls)) eqn:E;
        [|reflexivity].
      assert (existsb (fun e => Report.key_equal (fst e) (Report.key_of cls))
                      consolidated = true)
        by (apply existsb_exists; eauto).
      congruence. }
    assert (Hunseen : Forall (fun c => Report.key_equal (Report.key_of cls)
                                         (Report.key_of c) = false) seen).
    { apply Forall_forall. intros c Hc.
      destruct (Hcov c Hc) as (e & He & Hk).
      apply key_equal_false. intros Heq.
      specialize (Hnew e He). apply key_equal_false in Hnew. apply Hnew.
      apply key_equal_canonical in Hk. congruence. }
    split; [|split].
    + rewrite map_app. simpl.
      apply NoDup_app; [exact Hnd|repeat constructor; simpl; tauto|].
      intros x Hx Hx'. destruct Hx' as [<-|[]].
      apply in_map_iff in Hx as (e & Heq & He).
      specialize (Hnew e He). apply key_equal_false in Hnew. contradiction.
    + intros k s Hin. apply in_app_or in Hin as [Hin|[Heq|[]]].
      * destruct (Hent k s Hin) as (Hm & before & c0 & after & -> & Hk & Hshow & Hbefore).
        rewrite meetings_with_key_snoc.
        pose proof (Hnew (k, s) Hin) as Hk'. simpl in Hk'. rewrite Hk'.
        split; [now rewrite app_nil_r|].
        exists before, c0, (after ++ [cls]).
        rewrite <- app_assoc. repeat split; try assumption; apply Hshow.
      * inversion Heq; subst k s.
        rewrite meetings_with_key_snoc, key_equal_refl.
        rewrite (meetings_with_key_none _ _ Hunseen).
        split; [reflexivity|].
        exists seen, cls, []. repeat split; auto.
    + intros c Hc. apply in_app_or in Hc as [Hc|[<-|[]]].
      * destruct (Hcov c Hc) as (e & He & Hk).
        exists e. split; [apply in_or_app; now left|exact Hk].
      * eexists. split; [apply in_or_app; right; now left|].
        apply key_equal_refl.
Qed.

Lemma grouped_fold (over : list Report.over_class) :
  forall seen consolidated,
    grouped seen consolidated ->
    grouped (seen ++ over) (fold_left Report.consolidate_step over consolidated).
Proof.
  induction over as [|cls rest IH]; intros seen c H; simpl.
  - now rewrite app_nil_r.
  - replace (seen ++ cls :: rest) with ((seen ++ [cls]) ++ rest)
      by (now rewrite <- app_assoc).
    apply IH. now apply grouped_step.
Qed.

(** X23. The grouping of [analyze_over_capacity] is by course and section
    up to Python equality ([True] and 1 are one key): the keys of the sections
    are pairwise different; a section lists exactly the meetings of the
    records that have its key, in the order of the data; its course, title,
    section, building, room, enrollment and capacity are those of the first
    such record, whatever later records say; and every record over capacity
    falls in a section. *)
Theorem consolidate_groups_by_key (over : list Report.over_class) :
  NoDup (map (fun e => canonical_key (fst e)) (Report.consolidate over))
  /\ (forall k s,
         In (k, s) (Report.consolidate over) ->
         Report.sec_meetings s = meetings_with_key k over
         /\ exists before cls after,
             over = before ++ cls :: after
             /\ k = Report.key_of cls /\ shows s cls
             /\ Forall (fun c => Report.key_equal k (Report.key_of c) = false)
                       before)
  /\ (forall cls,
         In cls over ->
         exists e, In e (Report.consolidate over)
                   /\ Report.key_equal (fst e) (Report.key_of cls) = true).
Proof.
  unfold Report.consolidate.
  apply (grouped_fold over [] []).
  split; [constructor|]. split; [intros k s []|intros cls []].
Qed.

Lemma consolidate_groups_by_key_witness :
  exists k s,
    Report.consolidate sample_over = [(k, s)]
    /\ List.length (Report.sec_meetings s) = 2%nat
    /\ Report.sec_building s = "SCI".
Proof.
  destruct (Report.consolidate sample_over) as [|[k s] [|e rest]] eqn:E;
    try (vm_compute in E; discriminate E).
  exists k, s. split; [reflexivity|].
  destruct (consolidate_groups_by_key sample_over) as (_ & Hent & _).
  rewrite E in Hent.
  destruct (Hent k s (or_introl eq_refl)) as (Hm & _).
  rewrite Hm. vm_compute in E. inversion E; subst k s. split; reflexivity.
Defined.

(* ================================================================= *)
(** * The word list of [word_frequency.py] *)

Lemma kept_lowered (c : ascii) :
  WordFrequency.kept c = true -> lowered (lower_char c) = true.
Proof. by_cases_on_char c. Qed.

Lemma lowered_word_char (c : ascii) :
  lowered c = true -> isspace c = false -> word_char c = true.
Proof. by_cases_on_char c. Qed.

Lemma word_char_letter (c : ascii) :
  word_char c = true -> WordFrequency.is_apostrophe c = false ->
  is_lower c = true.
Proof. by_cases_on_char c. Qed.

Lemma upper_in_name (c : ascii) :
  is_upper c = true -> WordFrequency.in_name c = true /\ isspace c = false.
Proof. by_cases_on_char c; split; reflexivity. Qed.

Lemma lower_not_in_name (c : ascii) :
  is_lower c = true -> WordFrequency.in_name c = false /\ isspace c = false.
Proof. by_cases_on_char c; split; reflexivity. Qed.

Lemma isspace_lower_char (c : ascii) : isspace (lower_char c) = isspace c.
Proof. by_cases_on_char c. Qed.

Lemma blank_kept_blank (c : ascii) :
  isspace c = true -> WordFrequency.kept c = true -> c = " "%char.
Proof. by_cases_on_char c. Qed.

Lemma all_chars_impl (p q : ascii -> bool) (s : string) :
  (forall c, p c = true -> q c = true) ->
  all_chars p s = true -> all_chars q s = true.
Proof.
  intros H. induction s as [|c r IH]; simpl; [reflexivity|].
  intros Hs. apply andb_true_iff in Hs as [Hc Hr].
  now rewrite (H c Hc), (IH Hr).
Qed.

Lemma all_chars_app (p : ascii -> bool) (a b : string) :
  all_chars p (a ++ b) = all_chars p a && all_chars p b.
Proof.
  induction a as [|c r IH]; simpl; [reflexivity|].
  now rewrite IH, andb_assoc.
Qed.

Lemma all_chars_lstrip (p q : ascii -> bool) (s : string) :
  all_chars p s = true -> all_chars p (lstrip_by q s) = true.
Proof.
  induction s as [|c r IH]; simpl; [reflexivity|].
  intros H. destruct (q c); [|exact H].
  apply andb_true_iff in H as [_ Hr]. now apply IH.
Qed.

Lemma all_chars_rstrip (p q : ascii -> bool) (s : string) :
  all_chars p s = true -> all_chars p (rstrip_by q s) = true.
Proof.
  induction s as [|c r IH]; simpl; [reflexivity|].
  intros H. apply andb_true_iff in H as [Hc Hr].
  destruct (q c && is_empty (rstrip_by q r)); [reflexivity|].
  simpl. now rewrite Hc, (IH Hr).
Qed.

Lemma all_chars_strip_by (p q : ascii -> bool) (s : string) :
  all_chars p s = true -> all_chars p (strip_by q s) = true.
Proof.
  intros H. unfold strip_by. now apply all_chars_rstrip, all_chars_lstrip.
Qed.

Lemma remove_punctuation_kept (s : string) :
  all_chars WordFrequency.kept (WordFrequency.remove_punctuation s) = true.
Proof.
  induction s as [|c r IH]; simpl; [reflexivity|].
  destruct (WordFrequency.kept c) eqn:E; [|exact IH].
  simpl. now rewrite E, IH.
Qed.

Lemma lower_lowered (s : string) :
  all_chars WordFrequency.kept s = true -> all_chars lowered (lower s) = true.
Proof.
  induction s as [|c r IH]; simpl; [reflexivity|].
  intros H. apply andb_true_iff in H as [Hc Hr].
  now rewrite (kept_lowered c Hc), (IH Hr).
Qed.

Lemma split_blanks_words (s : string) :
  all_chars lowered s = true ->
  Forall (fun w => all_chars word_char w = true) (WordFrequency.split_blanks s).
Proof.
  induction s as [|c r IH]; simpl; [constructor|].
  intros H. apply andb_true_iff in H as [Hc Hr]. specialize (IH Hr).
  destruct (isspace c) eqn:Es; [exact IH|].
  pose proof (lowered_word_char c Hc Es) as Hw.
  destruct (starts_with isspace r || is_empty r).
  - constructor; [simpl; now rewrite Hw|exact IH].
  - destruct (WordFrequency.split_blanks r) as [|w ws].
    + constructor; [simpl; now rewrite Hw|constructor].
    + inversion IH; subst. constructor; [|assumption].
      simpl. rewrite Hw. assumption.
Qed.

Lemma bare_word_letters (w : string) :
  all_chars word_char w = true -> is_empty w = false ->
  bare WordFrequency.is_apostrophe w = true ->
  starts_with is_lower w = true /\ ends_with is_lower w = true.
Proof.
  intros Hall Hne Hbare.
  apply bare_not_empty_starts in Hbare as [Hs He]. split.
  - destruct w as [|c r]; [discriminate|]. simpl in *.
    apply andb_true_iff in Hall as [Hc _]. now apply word_char_letter.
  - clear Hs. induction w as [|c r IH]; [discriminate|].
    simpl in Hall. apply andb_true_iff in Hall as [Hc Hr].
    destruct r as [|c' r'].
    + simpl in *. now apply word_char_letter.
    + cbn [ends_with] in *. now apply IH.
Qed.

Lemma strip_apostrophes_words (words : list string) :
  Forall (fun w => all_chars word_char w = true) words ->
  Forall (fun w => all_chars word_char w = true
                   /\ starts_with is_lower w = true
                   /\ ends_with is_lower w = true)
         (WordFrequency.strip_apostrophes words).
Proof.
  induction 1 as [|w rest Hw Hrest IH]; simpl; [constructor|].
  destruct (is_empty (strip_by WordFrequency.is_apostrophe w)) eqn:E;
    [exact IH|].
  constructor; [|exact IH].
  pose proof (all_chars_strip_by word_char WordFrequency.is_apostrophe w Hw) as Hall.
  split; [exact Hall|].
  apply bare_word_letters; [exact Hall|exact E|apply strip_by_bare].
Qed.

Lemma clean_words_shape (line : string) :
  Forall (fun w => all_chars word_char w = true
                   /\ starts_with is_lower w = true
                   /\ ends_with is_lower w = true)
         (WordFrequency.clean_words line).
Proof.
  unfold WordFrequency.clean_words.
  apply strip_apostrophes_words, split_blanks_words.
  unfold strip. apply all_chars_strip_by, lower_lowered, remove_punctuation_kept.
Qed.

Lemma extract_dialogue_words_flat (lines : list string) :
  WordFrequency.extract_dialogue_words lines
  = flat_map WordFrequency.line_words lines.
Proof.
  unfold WordFrequency.extract_dialogue_words.
  rewrite <- (app_nil_l (flat_map _ lines)).
  generalize (@nil string).
  induction lines as [|l rest IH]; intros acc; simpl.
  - now rewrite app_nil_r.
  - rewrite IH, app_assoc. reflexivity.
Qed.

(** X24. Every word [extract_dialogue_words] returns is made of lower-case
    letters and apostrophes only and begins and ends with a letter; in
    particular no word is empty and none carries a digit, an upper-case
    letter, a blank or punctuation. *)
Theorem dialogue_words_are_clean (lines : list string) :
  Forall (fun w => all_chars word_char w = true
                   /\ starts_with is_lower w = true
                   /\ ends_with is_lower w = true)
         (WordFrequency.extract_dialogue_words lines).
Proof.
  rewrite extract_dialogue_words_flat. apply Forall_forall. intros w Hw.
  apply in_flat_map in Hw as (line & _ & Hw).
  unfold WordFrequency.line_words in Hw.
  destruct (is_empty (strip line)); [destruct Hw|].
  pose proof (clean_words_shape (WordFrequency.remove_speaker (strip line))) as H.
  rewrite Forall_forall in H. now apply H.
Qed.

Lemma app_assoc_string (a b c : string) :
  ((a ++ b) ++ c = a ++ b ++ c)%string.
Proof. induction a as [|x r IH]; simpl; [reflexivity|]. now rewrite IH. Qed.

Lemma rstrip_by_split (p : ascii -> bool) (s : string) :
  exists post, s = (rstrip_by p s ++ post)%string /\ all_chars p post = true.
Proof.
  induction s as [|c r (post & Hs & Hp)]; simpl.
  - now exists "".
  - destruct (p c && is_empty (rstrip_by p r)) eqn:E.
    + apply andb_true_iff in E as [Hc He].
      destruct (rstrip_by p r); [|discriminate]. simpl in Hs.
      exists (String c post). simpl. rewrite Hc, Hp. now rewrite <- Hs.
    + exists post. simpl. now rewrite <- Hs.
Qed.

Lemma rstrip_by_after (p : ascii -> bool) (a b : string) (c : ascii) :
  p c = false ->
  rstrip_by p (a ++ String c b) = (a ++ String c (rstrip_by p b))%string.
Proof.
  intros Hc. induction a as [|x r IH]; simpl.
  - now rewrite Hc.
  - rewrite IH. destruct (r ++ String c (rstrip_by p b))%string eqn:E.
    + destruct r; discriminate.
    + now rewrite andb_false_r.
Qed.

Lemma remove_punctuation_app (a b : string) :
  WordFrequency.remove_punctuation (a ++ b)
  = (WordFrequency.remove_punctuation a ++ WordFrequency.remove_punctuation b)%string.
Proof.
  induction a as [|c r IH]; simpl; [reflexivity|].
  destruct (WordFrequency.kept c); simpl; now rewrite IH.
Qed.

Lemma lower_app (a b : string) : lower (a ++ b) = (lower a ++ lower b)%string.
Proof. induction a as [|c r IH]; simpl; [reflexivity|]. now rewrite IH. Qed.

Lemma blanks_stay_blank (s : string) :
  all_chars isspace s = true ->
  all_chars isspace (lower (WordFrequency.remove_punctuation s)) = true.
Proof.
  induction s as [|c r IH]; simpl; [reflexivity|].
  intros H. apply andb_true_iff in H as [Hc Hr].
  destruct (WordFrequency.kept c); [|now apply IH].
  simpl. now rewrite isspace_lower_char, Hc, (IH Hr).
Qed.

Lemma clean_words_pad (pre s post : string) :
  all_chars isspace pre = true -> all_chars isspace post = true ->
  WordFrequency.clean_words (pre ++ s ++ post) = WordFrequency.clean_words s.
Proof.
  intros Hpre Hpost. unfold WordFrequency.clean_words.
  rewrite !remove_punctuation_app, !lower_app. unfold strip.
  now rewrite strip_by_pad by (now apply blanks_stay_blank).
Qed.

Lemma clean_words_strip (s : string) :
  WordFrequency.clean_words (lstrip_by isspace (rstrip_by isspace s))
  = WordFrequency.clean_words s
  /\ WordFrequency.clean_words (strip s) = WordFrequency.clean_words s.
Proof.
  split.
  - destruct (rstrip_by_split isspace s) as (post & Hs & Hpost).
    destruct (lstrip_by_split isspace (rstrip_by isspace s)) as (pre & Hr & Hpre).
    set (L := lstrip_by isspace (rstrip_by isspace s)) in *.
    assert (E : s = (pre ++ L ++ post)%string).
    { rewrite Hs at 1. rewrite Hr at 1. apply app_assoc_string. }
    rewrite <- (clean_words_pad pre L post Hpre Hpost). now rewrite <- E.
  - unfold strip, strip_by.
    destruct (lstrip_by_split isspace s) as (pre & Hs & Hpre).
    destruct (rstrip_by_split isspace (lstrip_by isspace s)) as (post & Hr & Hpost).
    set (T := rstrip_by isspace (lstrip_by isspace s)) in *.
    assert (E : s = (pre ++ T ++ post)%string).
    { rewrite Hs at 1. now rewrite Hr at 1. }
    rewrite <- (clean_words_pad pre T post Hpre Hpost). now rewrite <- E.
Qed.

Lemma lstrip_in_name_colon (name rest : string) :
  all_chars WordFrequency.in_name name = true ->
  lstrip_by WordFrequency.in_name (name ++ String colon rest) = String colon rest.
Proof.
  intros H. now apply lstrip_by_app.
Qed.

(** X25. A speaker name at the start of a line adds no word: when the line
    begins with an upper-case letter followed by upper-case letters and
    blanks up to a colon, its words are those of the text after the colon,
    cleaned as any text is.  Only this first prefix is removed. *)
Theorem speaker_name_adds_no_word (name rest : string) :
  starts_with is_upper name = true ->
  all_chars WordFrequency.in_name name = true ->
  WordFrequency.line_words (name ++ String colon rest)
  = WordFrequency.clean_words rest.
Proof.
  intros Hstart Hname.
  destruct name as [|c r]; [discriminate|]. simpl in Hstart.
  destruct (upper_in_name c Hstart) as [Hin Hns].
  unfold WordFrequency.line_words, strip, strip_by.
  rewrite lstrip_by_fixed by (simpl; exact Hns).
  rewrite (rstrip_by_after isspace (String c r) rest colon) by reflexivity.
  cbn [append is_empty].
  unfold WordFrequency.remove_speaker.
  cbn [starts_with]. rewrite Hin.
  change (String c (r ++ String colon (rstrip_by isspace rest)))
    with (String c r ++ String colon (rstrip_by isspace rest))%string.
  rewrite (lstrip_in_name_colon _ _ Hname).
  change (Ascii.eqb colon colon) with true. cbn iota.
  apply clean_words_strip.
Qed.

Lemma speaker_name_adds_no_word_witness :
  WordFrequency.line_words "CHUCK NOLAND:  KELLY: I'll be right back! "
  = ["kelly"; "i'll"; "be"; "right"; "back"].
Proof.
  change "CHUCK NOLAND:  KELLY: I'll be right back! "
    with ("CHUCK NOLAND" ++ String colon "  KELLY: I'll be right back! ")%string.
  rewrite speaker_name_adds_no_word; reflexivity.
Defined.

Lemma line_words_plain (line : string) :
  starts_with is_lower line = true ->
  WordFrequency.line_words line = WordFrequency.clean_words line.
Proof.
  intros Hstart. destruct line as [|c r]; [discriminate|]. simpl in Hstart.
  destruct (lower_not_in_name c Hstart) as [Hin Hns].
  unfold WordFrequency.line_words.
  assert (Hs : exists t, strip (String c r) = String c t).
  { unfold strip, strip_by. rewrite lstrip_by_fixed by (simpl; exact Hns).
    simpl. rewrite Hns. simpl. eauto. }
  destruct Hs as [t Hs]. rewrite Hs. cbn [is_empty].
  unfold WordFrequency.remove_speaker. cbn [starts_with]. rewrite Hin.
  rewrite <- Hs. apply clean_words_strip.
Qed.

(** X26. Punctuation is deleted, not taken as a separator: in a line that
    begins with a lower-case letter, dropping a character that is neither a
    letter, an apostrophe nor a space character leaves the words unchanged,
    so two words joined by such characters only come out as one word. *)
Theorem punctuation_joins_words (a b : string) (c : ascii) :
  starts_with is_lower a = true ->
  WordFrequency.kept c = false ->
  WordFrequency.line_words (a ++ String c b) = WordFrequency.line_words (a ++ b).
Proof.
  intros Hstart Hc.
  rewrite !line_words_plain
    by (destruct a; [discriminate|exact Hstart]).
  unfold WordFrequency.clean_words.
  rewrite !remove_punctuation_app. simpl. now rewrite Hc.
Qed.

Lemma punctuation_joins_words_witness :
  WordFrequency.line_words ("well" ++ String "."%char "okay")
  = WordFrequency.line_words ("well" ++ "okay")
  /\ WordFrequency.line_words ("well" ++ "okay") = ["wellokay"].
Proof.
  split; [|reflexivity].
  apply (punctuation_joins_words "well" "okay" "."%char); reflexivity.
Defined.

(* ================================================================= *)
(** * A record with a building that is not a text *)

Lemma capacity_loop_app (before after : list (dict Json.json)) :
  forall st,
    Report.capacity_loop (before ++ after) st =
    (st' <- Report.capacity_loop before st ;; Report.capacity_loop after st').
Proof.
  induction before as [|c rest IH]; intros st; simpl; [reflexivity|].
  destruct (Report.capacity_step st c); cbn [bind]; [apply IH|reflexivity].
Qed.

(** X27. The empty default for [building] serves a missing key only: if
    the first record with [capacity_from_csv] equal to [True] has a
    [building] that is present but is not a text (null, a number, a
    boolean), the first part of [analyze_over_capacity] ends in an
    [AttributeError]. *)
Theorem non_text_building_raises
    (before after : list (dict Json.json)) (course : dict Json.json)
    (v : Json.json) :
  Forall (fun c => flagged c = false) before ->
  flagged course = true ->
  dict_get course "building" = Some v ->
  (forall s, v <> Json.Str s) ->
  Report.capacity_summary (before ++ course :: after)
  = Report.Failed (Report.Builtin AttributeError).
Proof.
  intros Hbefore Hflag Hget Hv.
  unfold Report.capacity_summary.
  rewrite capacity_loop_app, (capacity_loop_unflagged before Hbefore).
  cbn [bind Report.capacity_loop]. unfold Report.capacity_step.
  unfold flagged in Hflag. rewrite Hflag.
  unfold Json.get_default at 1. rewrite Hget.
  destruct v as [|b|n|s]; try reflexivity.
  now contradiction (Hv s).
Qed.

Lemma non_text_building_raises_witness :
  Report.capacity_summary
    ([[("course", Json.Str "ALE 2171")]] ++
     [("capacity_from_csv", Json.Bool true); ("building", Json.Null)] :: [])
  = Report.Failed (Report.Builtin AttributeError).
Proof.
  apply (non_text_building_raises _ _ _ Json.Null).
  - repeat constructor.
  - reflexivity.
  - reflexivity.
  - discriminate.
Defined.
